(** * flf: the incremental search console and its search cores

    A shallow embedding of the TypeScript sources:
    - [src/types.ts]: [OutputType], [ChunkMeta], [QueryProps], [SearchResult],
      [ListItem], [IFlfCore];
    - [src/dircore.ts] and [src/buffercore.ts]: [search], [formatResult];
    - the interactive console [FluentFinderUI]: [updateList], [updatePreview],
      [handleQueryChange], [bindKeys], [bindInputEvents], [destroyTTY],
      [showResult], [convertListItemToListTitle].

    JavaScript strings are rendered as [string]: a sequence of code units in
    the range U+0000 to U+00FF, one character each.  Array indices and [list.selected] are integers ([Z]), positions
    in a source file are naturals ([N]).  The start-up code of the program
    (terminal set-up, argument parsing, indexing and the first search) is
    outside the model, which begins with the construction of the console. *)

From Stdlib Require Import List String Ascii ZArith NArith Lia Bool Arith.
From Stdlib Require Import DecimalString.
From Stdlib Require Import Permutation Sorted.
Import ListNotations.
Open Scope string_scope.

(** ** JavaScript built-ins used by the sources *)

(** A settled promise: the value it resolved to, or the reason it rejected
    with (the message of the thrown [Error]). *)
Inductive Promise (A : Type) : Type :=
| Resolved (a : A)
| Rejected (reason : string).
Arguments Resolved {A} a.
Arguments Rejected {A} reason.

(** [Number.prototype.toFixed] works on IEEE doubles, which are not modelled:
    the type of backend distances and its [toFixed] are an interface. *)
Class JSNumber (number : Type) : Type :=
  Build_JSNumber { toFixed : number -> nat -> string }.

(** Template-literal rendering of a non-negative integer. *)
Definition Number_toString (n : N) : string :=
  NilZero.string_of_uint (N.to_uint n).

(** [Array.prototype.map] with the [(element, index)] callback. *)
Fixpoint map_from {A B : Type} (f : A -> nat -> B) (index : nat) (l : list A)
  : list B :=
  match l with
  | [] => []
  | x :: t => f x index :: map_from f (S index) t
  end.

Definition Array_map_index {A B : Type} (f : A -> nat -> B) (l : list A)
  : list B :=
  map_from f 0 l.

(** [Array.prototype.sort(cmp)]: a stable sort by the sign of [cmp]; an
    element moves in front of the first later element it does not exceed. *)
Fixpoint sort_insert {A : Type} (cmp : A -> A -> Z) (x : A) (l : list A)
  : list A :=
  match l with
  | [] => [x]
  | y :: t => if (cmp x y <=? 0)%Z then x :: y :: t
              else y :: sort_insert cmp x t
  end.

Definition Array_sort {A : Type} (cmp : A -> A -> Z) (l : list A) : list A :=
  fold_right (sort_insert cmp) [] l.

(** [arr[idx]]: [undefined] outside [0 .. length-1]. *)
Definition Array_get {A : Type} (l : list A) (idx : Z) : option A :=
  if (idx <? 0)%Z then None else nth_error l (Z.to_nat idx).

(** [arr.at(idx)]: a negative index counts back from the end. *)
Definition Array_at {A : Type} (l : list A) (idx : Z) : option A :=
  if (idx <? 0)%Z then Array_get l (Z.of_nat (List.length l) + idx)
  else Array_get l idx.

Definition dquote : string := String "034"%char EmptyString.
Definition newline : ascii := "010"%char.

(** The white space and line terminators that [String.prototype.trim]
    strips, among the code units of a [string]: TAB, LF, VT, FF, CR, SP and
    the no-break space U+00A0. *)
Definition is_space (c : ascii) : bool :=
  let n := nat_of_ascii c in
  (((9 <=? n) && (n <=? 13)) || (n =? 32) || (n =? 160))%nat.

Fixpoint trimStart (s : string) : string :=
  match s with
  | EmptyString => EmptyString
  | String c t => if is_space c then trimStart t else s
  end.

Fixpoint trimEnd (s : string) : string :=
  match s with
  | EmptyString => EmptyString
  | String c t =>
      match trimEnd t with
      | EmptyString => if is_space c then EmptyString else String c EmptyString
      | t' => String c t'
      end
  end.

Definition trim (s : string) : string := trimEnd (trimStart s).

(** [[...s].slice(0, -1).join('')]: the string without its last character. *)
Fixpoint dropLast (s : string) : string :=
  match s with
  | EmptyString => EmptyString
  | String c EmptyString => EmptyString
  | String c t => String c (dropLast t)
  end.

(** [JSON.stringify] of a string: quoted, with the two-character escapes and
    [\u00xx] for the other control characters. *)
Definition hex_digit (n : nat) : ascii :=
  if (n <? 10)%nat then ascii_of_nat (48 + n) else ascii_of_nat (87 + n).

Definition JSON_escape_char (c : ascii) : string :=
  let n := nat_of_ascii c in
  if (n =? 34)%nat then "\" ++ dquote
  else if (n =? 92)%nat then "\\"
  else if (n =? 8)%nat then "\b"
  else if (n =? 12)%nat then "\f"
  else if (n =? 10)%nat then "\n"
  else if (n =? 13)%nat then "\r"
  else if (n =? 9)%nat then "\t"
  else if (n <? 32)%nat then
    "\u00" ++ String (hex_digit (n / 16)) (String (hex_digit (n mod 16)) EmptyString)
  else String c EmptyString.

Fixpoint JSON_escape (s : string) : string :=
  match s with
  | EmptyString => EmptyString
  | String c t => JSON_escape_char c ++ JSON_escape t
  end.

Definition JSON_string (s : string) : string := dquote ++ JSON_escape s ++ dquote.

Definition JSON_key (name : string) : string := dquote ++ name ++ dquote ++ ":".

Fixpoint has_newline (s : string) : bool :=
  match s with
  | EmptyString => false
  | String c t => Ascii.eqb c newline || has_newline t
  end.

(** ** src/types.ts *)

Inductive OutputType : Type := nvim | vim | emacs | cmd.

Module Point.
Record t : Type := mk { row : N; column : N }.
End Point.

Module CursorInfo.
Record t : Type := mk { start : Point.t; end_ : Point.t }.
End CursorInfo.

(** A row returned by [db.searchSimilar]: the stored [ChunkMeta] (with the
    [content] and [filepath] of its base metadata) and the distance. *)
Module ChunkMeta.
Record t (number : Type) : Type := mk {
  content : string;
  filepath : string;
  fileName : string;
  parentInfo : string;
  inlineDocument : string;
  entity : string;
  language : string;
  cursorInfo : CursorInfo.t;
  distance : number }.
Arguments mk {number}.
Arguments content {number}.
Arguments filepath {number}.
Arguments fileName {number}.
Arguments parentInfo {number}.
Arguments inlineDocument {number}.
Arguments entity {number}.
Arguments language {number}.
Arguments cursorInfo {number}.
Arguments distance {number}.
End ChunkMeta.

Module QueryProps.
Record t : Type := mk {
  queryText : string;
  k : Z;
  isJsonOutput : bool;
  dbPath : string }.
End QueryProps.

Module SearchResult.
Record t : Type := mk {
  rank : Z;
  file : string;
  fileName : string;
  contentSnippet : string;
  entity : string;
  parentInfo : string;
  score : string;
  language : string;
  cursorInfo : CursorInfo.t }.
End SearchResult.

Module ListItem.
Record t : Type := mk {
  filePath : string;
  entity : string;
  content : string;
  language : string;
  cursorInfo : CursorInfo.t }.
End ListItem.

(** [interface IFlfCore]. *)
Class IFlfCore (C : Type) : Type := {
  search : C -> QueryProps.t -> Promise (list SearchResult.t);
  formatResult : C -> ListItem.t -> OutputType -> string }.

(** [JSON.stringify(result)] for a [ListItem], keys in declaration order. *)
Definition JSON_Point (p : Point.t) : string :=
  "{" ++ JSON_key "row" ++ Number_toString (Point.row p) ++ ","
      ++ JSON_key "column" ++ Number_toString (Point.column p) ++ "}".

Definition JSON_CursorInfo (c : CursorInfo.t) : string :=
  "{" ++ JSON_key "start" ++ JSON_Point (CursorInfo.start c) ++ ","
      ++ JSON_key "end" ++ JSON_Point (CursorInfo.end_ c) ++ "}".

Definition JSON_stringify (result : ListItem.t) : string :=
  "{" ++ JSON_key "filePath" ++ JSON_string (ListItem.filePath result) ++ ","
      ++ JSON_key "entity" ++ JSON_string (ListItem.entity result) ++ ","
      ++ JSON_key "content" ++ JSON_string (ListItem.content result) ++ ","
      ++ JSON_key "language" ++ JSON_string (ListItem.language result) ++ ","
      ++ JSON_key "cursorInfo" ++ JSON_CursorInfo (ListItem.cursorInfo result)
      ++ "}".

(** The 1-based starting line, [result.cursorInfo.start.row + 1]. *)
Definition startLine (result : ListItem.t) : N :=
  (Point.row (CursorInfo.start (ListItem.cursorInfo result)) + 1)%N.

(** ** The vector database (veqlite), seen through [searchSimilar] *)

Record VeqliteDB (number : Type) : Type := {
  searchSimilar : string -> Z -> Promise (list (ChunkMeta.t number)) }.
Arguments searchSimilar {number}.

(** The callback of [results.map] in [search], the same text in both cores. *)
Definition toSearchResult {number : Type} `{JSNumber number}
  (isJsonOutput : bool) (result : ChunkMeta.t number) (index : nat)
  : SearchResult.t :=
  {| SearchResult.rank := Z.of_nat index + 1;
     SearchResult.file := ChunkMeta.filepath result;
     SearchResult.fileName := ChunkMeta.fileName result;
     SearchResult.contentSnippet :=
       if isJsonOutput then ChunkMeta.content result
       else substring 0 100 (ChunkMeta.content result) ++ "...";
     SearchResult.entity := ChunkMeta.entity result;
     SearchResult.parentInfo := ChunkMeta.parentInfo result;
     SearchResult.score := toFixed (ChunkMeta.distance result) 4;
     SearchResult.language := ChunkMeta.language result;
     SearchResult.cursorInfo := ChunkMeta.cursorInfo result |}.

(** ** src/dircore.ts *)

Module FlfDirCore.
Record t (number : Type) : Type := mk { db : option (VeqliteDB number) }.
Arguments mk {number}.
Arguments db {number}.

Definition search {number : Type} `{JSNumber number}
  (this : t number) (props : QueryProps.t)
  : Promise (list SearchResult.t) :=
  match db this with
  | None => Rejected "DB must be initialized before searching."
  | Some db =>
      match searchSimilar db (QueryProps.queryText props) (QueryProps.k props) with
      | Rejected e => Rejected e
      | Resolved results =>
          Resolved
            (Array_map_index (toSearchResult (QueryProps.isJsonOutput props))
               results)
      end
  end.

Definition formatResult (result : ListItem.t) (outputType : OutputType)
  : string :=
  let query := JSON_stringify result in
  match outputType with
  | nvim | vim =>
      "<cmd>tabf +" ++ Number_toString (startLine result) ++ " "
        ++ ListItem.filePath result ++ "<CR>"
  | _ => query
  end.
End FlfDirCore.

(** ** src/buffercore.ts *)

Module FlfBufferCore.
Record t (number : Type) : Type := mk { db : option (VeqliteDB number) }.
Arguments mk {number}.
Arguments db {number}.

Definition search {number : Type} `{JSNumber number}
  (this : t number) (props : QueryProps.t)
  : Promise (list SearchResult.t) :=
  match db this with
  | None => Rejected "DB must be initialized before searching."
  | Some db =>
      match searchSimilar db (QueryProps.queryText props) (QueryProps.k props) with
      | Rejected e => Rejected e
      | Resolved results =>
          Resolved
            (Array_map_index (toSearchResult (QueryProps.isJsonOutput props))
               results)
      end
  end.

Definition formatResult (result : ListItem.t) (outputType : OutputType)
  : string :=
  let query := JSON_stringify result in
  match outputType with
  | nvim | vim =>
      "<cmd>call FlfJumpToBufWithLine(" ++ dquote ++ ListItem.filePath result
        ++ dquote ++ "," ++ dquote ++ Number_toString (startLine result)
        ++ dquote ++ ")<CR>"
  | _ => query
  end.
End FlfBufferCore.

#[export] Instance FlfDirCore_IFlfCore {number : Type} `{JSNumber number}
  : IFlfCore (FlfDirCore.t number) :=
  {| search := FlfDirCore.search;
     formatResult := fun _ => FlfDirCore.formatResult |}.

#[export] Instance FlfBufferCore_IFlfCore {number : Type} `{JSNumber number}
  : IFlfCore (FlfBufferCore.t number) :=
  {| search := FlfBufferCore.search;
     formatResult := fun _ => FlfBufferCore.formatResult |}.

(** ** The terminal widgets *)

(** Modelled from the spec: the scrollable list widget ([blessed.list], a
    terminal primitive whose code is not part of the sources) is an
    interface.  [this.list.selected] is [selected], the rendered rows are
    [items]. *)
Class ListElement (W : Type) : Type := {
  createList : W;
  items : W -> list string;
  selected : W -> Z;
  clearItems : W -> W;
  setItems : W -> list string -> W;
  select : W -> Z -> W;
  up : W -> Z -> W;
  down : W -> Z -> W }.

(** Saturation of an index into [0 .. len-1]. *)
Definition clamp (len : nat) (i : Z) : Z :=
  Z.max 0 (Z.min i (Z.of_nat len - 1)).

(** Modelled from the spec: what the console relies on from the list widget.
    [setItems] installs the rows it is given; [select], [up] and [down] keep
    the rows; on a non-empty list [select] clamps its index within
    [0 .. length-1] and [up]/[down] move the cursor by the given offset with
    the same saturation, without wrap-around.  Nothing is required of the
    cursor of an empty list. *)
Class ListElementLaws (W : Type) `{ListElement W} : Prop := {
  items_setItems : forall w l, items (setItems w l) = l;
  items_select : forall w i, items (select w i) = items w;
  items_up : forall w n, items (up w n) = items w;
  items_down : forall w n, items (down w n) = items w;
  selected_select : forall w i,
    items w <> [] -> selected (select w i) = clamp (List.length (items w)) i;
  selected_up : forall w n,
    items w <> [] ->
    selected (up w n) = clamp (List.length (items w)) (selected w - n);
  selected_down : forall w n,
    items w <> [] ->
    selected (down w n) = clamp (List.length (items w)) (selected w + n) }.

(** A list of rows with a cursor, on which the console is run on sample
    inputs.  The properties of the console are stated for every list that
    satisfies [ListElementLaws]; what the laws leave open (the cursor of an
    empty list, the cursor after the rows are replaced) is not settled by
    this list. *)
Module SimpleList.
Record t : Type := mk { rows : list string; cursor : Z }.

Definition select (w : t) (i : Z) : t :=
  {| rows := rows w; cursor := clamp (List.length (rows w)) i |}.
End SimpleList.

#[export] Instance SimpleList_ListElement : ListElement SimpleList.t := {|
  createList := {| SimpleList.rows := []; SimpleList.cursor := 0 |};
  items := SimpleList.rows;
  selected := SimpleList.cursor;
  clearItems := fun w =>
    {| SimpleList.rows := []; SimpleList.cursor := SimpleList.cursor w |};
  setItems := fun w l =>
    {| SimpleList.rows := l; SimpleList.cursor := SimpleList.cursor w |};
  select := SimpleList.select;
  up := fun w n => SimpleList.select w (SimpleList.cursor w - n);
  down := fun w n => SimpleList.select w (SimpleList.cursor w + n) |}.

(** What the console does to the screen, to the terminal streams [ttyIn] and
    [ttyOut], and to standard output. *)
Inductive Effect : Type :=
| InputFocus
| ScreenRender
| ScreenDestroy
| ConsoleLog (line : string)
| TtyOutWrite (text : string)
| SetRawMode (mode : bool)
| TtyInPause
| TtyInDestroy
| TtyOutEnd.

(** ** Methods that mutate the console and may throw *)

Inductive Outcome (S A : Type) : Type :=
| Returned (a : A) (s : S)
| Thrown (e : string) (s : S).
Arguments Returned {S A} a s.
Arguments Thrown {S A} e s.

Definition M (S A : Type) : Type := S -> Outcome S A.

Definition ret {S A : Type} (a : A) : M S A := fun s => Returned a s.

Definition bind {S A B : Type} (m : M S A) (f : A -> M S B) : M S B :=
  fun s =>
    match m s with
    | Returned a s' => f a s'
    | Thrown e s' => Thrown e s'
    end.

Definition throw {S A : Type} (e : string) : M S A := fun s => Thrown e s.

Definition gets {S A : Type} (f : S -> A) : M S A := fun s => Returned (f s) s.

Definition modify {S : Type} (f : S -> S) : M S unit :=
  fun s => Returned tt (f s).

Declare Scope js_scope.
Delimit Scope js_scope with js.
Notation "x <- m ;; k" := (bind m (fun x => k))
  (at level 61, m at next level, right associativity) : js_scope.
Notation "m ;; k" := (bind m (fun _ => k))
  (at level 61, right associativity) : js_scope.

Definition state_of {S A : Type} (o : Outcome S A) : S :=
  match o with
  | Returned _ s => s
  | Thrown _ s => s
  end.

(** ** The interactive console *)

Definition DEBUG : bool := false.

Inductive KeyInput : Type :=
| UnicodeKey (ch full : string)
| AsciiKey (sequence : string) (ctrl shift meta : bool) (name full : string).

(** [key.name] when it is truthy: not [null] and not the empty string. *)
Definition key_name (key : KeyInput) : option string :=
  match key with
  | UnicodeKey _ _ => None
  | AsciiKey _ _ _ _ name _ =>
      if String.eqb name "" then None else Some name
  end.

Definition key_full (key : KeyInput) : string :=
  match key with
  | UnicodeKey _ full => full
  | AsciiKey _ _ _ _ _ full => full
  end.

Definition key_ctrl (key : KeyInput) : bool :=
  match key with
  | UnicodeKey _ _ => false
  | AsciiKey _ ctrl _ _ _ _ => ctrl
  end.

Definition key_modified (key : KeyInput) : bool :=
  match key with
  | UnicodeKey _ _ => false
  | AsciiKey _ ctrl shift meta _ _ => ctrl || meta || shift
  end.

Module UIOptions.
Record t : Type := mk { editor : OutputType }.
End UIOptions.

(** The banner shown in the preview pane at start-up (its box-drawing
    characters appear as their UTF-8 bytes). *)
Definition LOGO : string := "

 ███████╗ ██╗      ███████╗
 ██╔════╝ ██║      ██╔════╝
 █████╗   ██║      █████╗
 ██╔══╝   ██║      ██╔══╝
 ██║      ███████╗ ██║
 ╚═╝      ╚══════╝ ╚═╝
".

Module FluentFinderUI.
Section Console.
Context {C W : Type} `{IFlfCore C} `{ListElement W}.

(** [preview] holds the content and the language last handed to [highlight];
    [io] lists the effects performed so far, oldest first. *)
Record t : Type := mk {
  core : C;
  list_ : W;
  preview : string * string;
  currentResult : list ListItem.t;
  options : UIOptions.t;
  io : list Effect }.

Definition set_list (w : W) (this : t) : t :=
  mk (core this) w (preview this) (currentResult this) (options this) (io this).

Definition set_preview (p : string * string) (this : t) : t :=
  mk (core this) (list_ this) p (currentResult this) (options this) (io this).

Definition set_currentResult (l : list ListItem.t) (this : t) : t :=
  mk (core this) (list_ this) (preview this) l (options this) (io this).

Definition perform (e : Effect) : M t unit :=
  modify (fun this =>
    mk (core this) (list_ this) (preview this) (currentResult this)
       (options this) (io this ++ [e])%list).

Local Open Scope js_scope.

Definition updatePreviewWithTitle (content : string) (language : option string)
  : M t unit :=
  modify (set_preview (content, match language with
                                | Some l => l
                                | None => ""
                                end)) ;;
  perform ScreenRender.

Definition updatePreview : M t unit :=
  idx <- gets (fun this => selected (list_ this)) ;;
  selectedItem <- gets (fun this => Array_get (currentResult this) idx) ;;
  match selectedItem with
  | None => throw "selectedItem is undefined"
  | Some selectedItem =>
      updatePreviewWithTitle (ListItem.content selectedItem)
        (Some (ListItem.language selectedItem))
  end.

Definition convertListItemToListTitle (item : ListItem.t) : string :=
  ListItem.filePath item ++ "#" ++ ListItem.entity item.

Definition updateList (items : list ListItem.t) : M t unit :=
  modify (set_currentResult items) ;;
  modify (fun this => set_list (clearItems (list_ this)) this) ;;
  modify (fun this =>
    set_list (setItems (list_ this) (map convertListItemToListTitle items))
      this) ;;
  (if (0 <? List.length items)%nat
   then modify (fun this => set_list (select (list_ this) 0) this)
   else ret tt) ;;
  let item := Array_at items 0 in
  updatePreviewWithTitle
    (match item with Some i => ListItem.content i | None => "" end)
    (Some (match item with Some i => ListItem.language i | None => "" end)).

Definition destroyTTY : M t unit :=
  perform (SetRawMode false) ;;
  perform TtyInPause ;;
  perform TtyInDestroy ;;
  perform TtyOutEnd.

Definition showResult (result : ListItem.t) (outputType : OutputType)
  : M t unit :=
  let query := JSON_stringify result in
  let query :=
    match outputType with
    | nvim | vim =>
        "<cmd>tabf +" ++ Number_toString (startLine result) ++ " "
          ++ ListItem.filePath result ++ "<CR>"
    | _ => query
    end in
  perform (ConsoleLog query) ;;
  if DEBUG
  then perform (TtyOutWrite query) ;;
       perform (TtyOutWrite (String newline EmptyString))
  else ret tt.

(** The argument of [this.core.search] in [handleQueryChange]. *)
Definition searchProps (query : string) : QueryProps.t :=
  {| QueryProps.queryText := query;
     QueryProps.isJsonOutput := true;
     QueryProps.k := 20;
     QueryProps.dbPath := ":memory:" |}.

(** [handleQueryChange] up to its [await]: the part that runs inside the
    keypress event.  [value] is [this.input.value] at that moment.  The result
    is [None] when the method returned ([up], [down]) and the query of the
    search it started otherwise. *)
Definition handleQueryChange_begin (value : string) (key : KeyInput)
  : M t (option string) :=
  let query := trim value in
  match key_name key with
  | Some name =>
      if String.eqb name "backspace" then
        ret (Some (dropLast query))
      else if String.eqb name "enter" then
        listIdx <- gets (fun this => selected (list_ this)) ;;
        selectedItem <- gets (fun this => Array_at (currentResult this) listIdx) ;;
        match selectedItem with
        | Some selectedItem =>
            perform ScreenDestroy ;;
            editor <- gets (fun this => UIOptions.editor (options this)) ;;
            showResult selectedItem editor ;;
            perform (SetRawMode false) ;;
            perform TtyInPause ;;
            perform TtyInDestroy ;;
            perform TtyOutEnd
        | None => ret tt
        end ;;
        ret (Some query)
      else if String.eqb name "up" then
        modify (fun this => set_list (up (list_ this) 1) this) ;;
        updatePreview ;;
        ret None
      else if String.eqb name "down" then
        modify (fun this => set_list (down (list_ this) 1) this) ;;
        updatePreview ;;
        ret None
      else if negb (key_modified key) && (String.length name =? 1)%nat then
        ret (Some (query ++ name))
      else if key_ctrl key && String.eqb name "c" then
        perform ScreenDestroy ;;
        destroyTTY ;;
        ret (Some query)
      else ret (Some query)
  | None => ret (Some (query ++ key_full key))
  end.

Definition byRank (a b : SearchResult.t) : Z :=
  SearchResult.rank a - SearchResult.rank b.

Definition toListItem (r : SearchResult.t) : ListItem.t :=
  {| ListItem.filePath := SearchResult.file r;
     ListItem.entity := SearchResult.entity r;
     ListItem.content := SearchResult.contentSnippet r;
     ListItem.language := SearchResult.language r;
     ListItem.cursorInfo := SearchResult.cursorInfo r |}.

(** [handleQueryChange] after its [await], once the search has resolved. *)
Definition handleQueryChange_resume (res : list SearchResult.t) : M t unit :=
  updateList (map toListItem (Array_sort byRank res)) ;;
  perform ScreenRender.

(** [handleQueryChange] with nothing else running between the keypress and
    the answer of the search; a rejected search throws at the [await]. *)
Definition handleQueryChange (value : string) (key : KeyInput) : M t unit :=
  started <- handleQueryChange_begin value key ;;
  match started with
  | None => ret tt
  | Some query =>
      res <- (fun this =>
                match search (core this) (searchProps query) with
                | Resolved res => Returned res this
                | Rejected e => Thrown e this
                end) ;;
      handleQueryChange_resume res
  end.

(** The callback that [bindKeys] registers for [escape], [q] and [C-c]. *)
Definition bindKeys_callback : M t unit :=
  perform ScreenDestroy ;;
  destroyTTY.

(** The constructor: the widgets are created empty, the list is filled with
    no items, the banner is shown and the screen rendered. *)
Definition constructor (core : C) (options : UIOptions.t) : t :=
  state_of
    ((updateList [] ;;
      updatePreviewWithTitle LOGO None ;;
      perform InputFocus ;;
      perform ScreenRender)
       (mk core createList ("", "") [] options [])).

(** [run()]: render, then wait for input. *)
Definition run : M t unit := perform ScreenRender.

End Console.
Arguments t : clear implicits.
End FluentFinderUI.

(** ** The event loop around the console

    [bindInputEvents] calls [handleQueryChange] from the keypress listener and
    drops the promise it returns; [bindKeys] registers the quit callback on
    the screen.  A search started by a keypress stays in flight until its
    promise settles, and any number of them can be in flight at once.  The
    requests are numbered in the order they were started; the console itself
    keeps no such number. *)

Module Session.
Section Loop.
Context {C W : Type} `{IFlfCore C} `{ListElement W}.

(** [uncaught] lists the reasons of the handler promises that rejected, which
    nothing catches. *)
Record t : Type := mk {
  ui : FluentFinderUI.t C W;
  inflight : list (nat * Promise (list SearchResult.t));
  started : nat;
  uncaught : list string }.

Inductive Event : Type :=
| Keypress (value : string) (key : KeyInput)
| ScreenKey
| Settle (request : nat).

Fixpoint pending (request : nat) (l : list (nat * Promise (list SearchResult.t)))
  : option (Promise (list SearchResult.t)) :=
  match l with
  | [] => None
  | (n, p) :: rest => if (n =? request)%nat then Some p else pending request rest
  end.

Fixpoint forget (request : nat) (l : list (nat * Promise (list SearchResult.t)))
  : list (nat * Promise (list SearchResult.t)) :=
  match l with
  | [] => []
  | (n, p) :: rest =>
      if (n =? request)%nat then forget request rest
      else (n, p) :: forget request rest
  end.

(** The keypress listener of [bindInputEvents]. *)
Definition keypress (value : string) (key : KeyInput) (s : t) : t :=
  match FluentFinderUI.handleQueryChange_begin value key (ui s) with
  | Thrown e u => mk u (inflight s) (started s) (uncaught s ++ [e])%list
  | Returned None u => mk u (inflight s) (started s) (uncaught s)
  | Returned (Some query) u =>
      mk u
         (inflight s ++
            [(started s,
              search (FluentFinderUI.core u) (FluentFinderUI.searchProps query))])%list
         (S (started s)) (uncaught s)
  end.

(** The screen's key listener for [escape], [q] and [C-c]. *)
Definition screenKey (s : t) : t :=
  match FluentFinderUI.bindKeys_callback (ui s) with
  | Thrown e u => mk u (inflight s) (started s) (uncaught s ++ [e])%list
  | Returned _ u => mk u (inflight s) (started s) (uncaught s)
  end.

(** The promise of a search in flight settles and its handler resumes. *)
Definition settle (request : nat) (s : t) : t :=
  match pending request (inflight s) with
  | None => s
  | Some (Rejected e) =>
      mk (ui s) (forget request (inflight s)) (started s)
         (uncaught s ++ [e])%list
  | Some (Resolved res) =>
      match FluentFinderUI.handleQueryChange_resume res (ui s) with
      | Thrown e u =>
          mk u (forget request (inflight s)) (started s)
             (uncaught s ++ [e])%list
      | Returned _ u =>
          mk u (forget request (inflight s)) (started s) (uncaught s)
      end
  end.

Definition step (s : t) (ev : Event) : t :=
  match ev with
  | Keypress value key => keypress value key s
  | ScreenKey => screenKey s
  | Settle request => settle request s
  end.

Definition run (evs : list Event) (s : t) : t := fold_left step evs s.

(** The lines written to standard output so far. *)
Fixpoint stdout (io : list Effect) : list string :=
  match io with
  | [] => []
  | ConsoleLog line :: rest => line :: stdout rest
  | _ :: rest => stdout rest
  end.



(** The session of a console that was just constructed and run. *)
Definition start (core : C) (options : UIOptions.t) : t :=
  mk (state_of (FluentFinderUI.run (FluentFinderUI.constructor core options)))
     [] 0 [].

End Loop.
Arguments t : clear implicits.
End Session.

(** ** Sample data, used to run the definitions on concrete inputs *)

(** Distances that are whole multiples of 1/10000, stored as that multiple;
    [toFixed] rounds half up to the requested number of decimals. *)
Fixpoint zeros (n : nat) : string :=
  match n with
  | O => EmptyString
  | S n' => String "0"%char (zeros n')
  end.

Definition zero_pad (width : nat) (s : string) : string :=
  zeros (width - String.length s) ++ s.

Definition tenThousandths_toFixed (d : N) (digits : nat) : string :=
  let scale := (10 ^ N.of_nat digits)%N in
  let n := ((2 * d * scale + 10000) / 20000)%N in
  let whole := Number_toString (n / scale) in
  match digits with
  | O => whole
  | _ => whole ++ "." ++ zero_pad digits (Number_toString (n mod scale))
  end.

#[export] Instance tenThousandths : JSNumber N :=
  {| toFixed := tenThousandths_toFixed |}.

Definition point (r c : N) : Point.t := {| Point.row := r; Point.column := c |}.

Definition span (r1 r2 : N) : CursorInfo.t :=
  {| CursorInfo.start := point r1 0; CursorInfo.end_ := point r2 1 |}.

Definition chunk (path name body : string) (line : N) (d : N) : ChunkMeta.t N :=
  {| ChunkMeta.content := body;
     ChunkMeta.filepath := path;
     ChunkMeta.fileName := path;
     ChunkMeta.parentInfo := "";
     ChunkMeta.inlineDocument := "";
     ChunkMeta.entity := name;
     ChunkMeta.language := "typescript";
     ChunkMeta.cursorInfo := span line (line + 2);
     ChunkMeta.distance := d |}.

Definition chunkA : ChunkMeta.t N := chunk "src/a.ts" "foo" "function foo() {}" 4 1234.
Definition chunkB : ChunkMeta.t N := chunk "src/b.ts" "fob" "function fob() {}" 9 2500.
Definition chunkC : ChunkMeta.t N := chunk "src/c.ts" "bar" "const bar = 1" 0 7071.

(** A backend that answers ["f"] with two chunks, ["fo"] with one, rejects the
    query ["!"] and answers anything else with all three. *)
Definition sampleDb : VeqliteDB N :=
  {| searchSimilar := fun queryText _ =>
       if String.eqb queryText "f" then Resolved [chunkA; chunkB]
       else if String.eqb queryText "fo" then Resolved [chunkB]
       else if String.eqb queryText "!" then Rejected "index unavailable"
       else Resolved [chunkA; chunkB; chunkC] |}.

Definition sampleCore : FlfDirCore.t N := FlfDirCore.mk (Some sampleDb).


Definition plainKey (name : string) : KeyInput :=
  AsciiKey name false false false name name.

Definition sampleSession : Session.t (FlfDirCore.t N) SimpleList.t :=
  Session.start sampleCore (UIOptions.mk nvim).

(** ** Predicates used to state the properties *)

(** Each element is followed by one it does not exceed under [cmp]. *)
Fixpoint ascending {A : Type} (cmp : A -> A -> Z) (l : list A) : Prop :=
  match l with
  | [] => True
  | x :: t =>
      match t with
      | [] => True
      | y :: _ => (cmp x y <= 0)%Z
      end /\ ascending cmp t
  end.

(** The key is one of the two navigation keys. *)
Definition is_navigation (key : KeyInput) : bool :=
  match key_name key with
  | Some name => String.eqb name "up" || String.eqb name "down"
  | None => false
  end.

(** The list widget after the navigation key has been applied to it. *)
Definition navigated {W : Type} `{ListElement W} (key : KeyInput) (w : W) : W :=
  match key_name key with
  | Some name => if String.eqb name "up" then up w 1 else down w 1
  | None => w
  end.

Definition navigation_event (ev : Session.Event) : bool :=
  match ev with
  | Session.Keypress _ key => is_navigation key
  | _ => false
  end.

(** Every line written to standard output comes after the terminal streams
    have been closed ([ttyIn.destroy()] and [ttyOut.end()]). *)
Fixpoint output_after_release (inClosed outClosed : bool) (io : list Effect)
  : bool :=
  match io with
  | [] => true
  | TtyInDestroy :: rest => output_after_release true outClosed rest
  | TtyOutEnd :: rest => output_after_release inClosed true rest
  | ConsoleLog _ :: rest =>
      inClosed && outClosed && output_after_release inClosed outClosed rest
  | _ :: rest => output_after_release inClosed outClosed rest
  end.

(** The effects of releasing the terminal, in the order of [destroyTTY]. *)
Definition release : list Effect :=
  [SetRawMode false; TtyInPause; TtyInDestroy; TtyOutEnd].

(** The sample console after ["f"] was typed and answered. *)
Definition answered : Session.t (FlfDirCore.t N) SimpleList.t :=
  Session.run [Session.Keypress "" (plainKey "f"); Session.Settle 0]
    sampleSession.

(** The same after one press of [down]. *)
Definition browsed : Session.t (FlfDirCore.t N) SimpleList.t :=
  Session.run [Session.Keypress "f" (plainKey "down")] answered.

(** ** The first finder: filtering a fixed list by fuzzy matching

    The earlier [FluentFinderUI] filters a list of strings that is fixed at
    construction; its matching function is the same text in the class
    ([private static fuzzyMatch]) and in the script that preceded it. *)

(** [String.prototype.toLowerCase] follows the Unicode case mappings, which
    depend on more than the single character (a capital may lower to several
    code units, a final sigma lowers by its position): an interface. *)
Class JSLowerCase : Type := { toLowerCase : string -> string }.

(** What [fuzzyMatch] relies on: lower-casing adds no character to the empty
    string and removes none, so exactly the empty string lowers to the empty
    string. *)
Class JSLowerCaseLaws (lower : JSLowerCase) : Prop := {
  toLowerCase_empty : forall s, toLowerCase s = "" <-> s = "" }.

(** A sample lower-casing, the one of the Latin-1 code units: the capitals
    [A]-[Z], U+00C0-U+00D6 and U+00D8-U+00DE move up by 32. *)
Definition latin1_lower (c : ascii) : ascii :=
  let n := nat_of_ascii c in
  if (((65 <=? n) && (n <=? 90)) || ((192 <=? n) && (n <=? 214))
      || ((216 <=? n) && (n <=? 222)))%nat
  then ascii_of_nat (n + 32) else c.

Fixpoint latin1_toLowerCase (s : string) : string :=
  match s with
  | EmptyString => EmptyString
  | String c t => String (latin1_lower c) (latin1_toLowerCase t)
  end.

#[export] Instance latin1LowerCase : JSLowerCase :=
  {| toLowerCase := latin1_toLowerCase |}.

(** The [for] loop of [fuzzyMatch]: [rest] is what is left of [lowerItem]
    from [itemIndex] on.  [lowerQuery[queryIndex]] is [undefined] past the
    end, which equals no character. *)
Fixpoint fuzzyMatch_loop (lowerQuery : string) (queryIndex : nat)
  (rest : string) : bool :=
  match rest with
  | EmptyString => false
  | String ch rest' =>
      let queryIndex :=
        match String.get queryIndex lowerQuery with
        | Some q => if Ascii.eqb ch q then S queryIndex else queryIndex
        | None => queryIndex
        end in
      if (queryIndex =? String.length lowerQuery)%nat then true
      else fuzzyMatch_loop lowerQuery queryIndex rest'
  end.

Definition fuzzyMatch {lower : JSLowerCase} (query item : string) : bool :=
  if String.eqb query "" then true
  else fuzzyMatch_loop (toLowerCase query) 0 (toLowerCase item).

(** The list that the first finder's [handleQueryChange] hands to
    [updateList] for a query. *)
Definition filteredItems {lower : JSLowerCase} (allItems : list string)
  (query : string) : list string :=
  if String.eqb query "" then allItems
  else filter (fun item => fuzzyMatch query item) allItems.

(** [q] is obtained from [item] by deleting characters. *)
Inductive Subsequence : string -> string -> Prop :=
| Subsequence_nil : forall item, Subsequence "" item
| Subsequence_take : forall c q item,
    Subsequence q item -> Subsequence (String c q) (String c item)
| Subsequence_skip : forall c q item,
    Subsequence q item -> Subsequence q (String c item).

(** The string without its first [n] characters. *)
Fixpoint string_drop (n : nat) (s : string) : string :=
  match n, s with
  | O, _ => s
  | S n', EmptyString => EmptyString
  | S n', String _ t => string_drop n' t
  end.

(** The event is a keypress of a key other than [up] and [down]. *)
Definition starts_search (ev : Session.Event) : bool :=
  match ev with
  | Session.Keypress _ key => negb (is_navigation key)
  | _ => false
  end.

(** ** Indexing, the buffer loader and the print interface

    [indexDirectory] (src/dircore.ts), [index] (src/buffercore.ts),
    [loadBufferInfoAsync] and [loadBufferInfoSync] (src/buffer-loader.ts) and
    the print interface [FlfCodeSearchUI] (src/dircore.ts).  Nothing runs
    between the steps of these functions, so an [await] is sequencing.  The
    parser, the file system and [JSON.parse] are an environment; an error is
    represented by its message.  What the functions do to the outside is
    logged, oldest first. *)

Module Boundary.
Record t : Type := mk {
  docs : option string;
  parent : option (list string);
  name : option string }.
End Boundary.

Module BoundaryChunk.
Record t : Type := mk {
  content : string;
  filePath : string;
  boundary : Boundary.t;
  language : string;
  start : Point.t;
  end_ : Point.t }.
End BoundaryChunk.

Module BufferInfo.
Record t : Type := mk { buffername : string; content : string }.
End BufferInfo.

(** [path.basename] and [path.resolve]. *)
Class NodePath : Type := { basename : string -> string; resolve : string -> string }.

Record IndexEnv : Type := {
  readDirectoryAndChunk : string -> Promise (list BoundaryChunk.t);
  parseCodeWithFilePath : string -> string -> Promise (list BoundaryChunk.t);
  readFile : string -> Promise string;
  JSON_parse : string -> Promise (list BufferInfo.t) }.

(** [LogError line] is [console.error(line)]; [LogErrorWith text error] is the
    call with two arguments, [console.error(text, error)], whose line the
    runtime builds by formatting [text] with [error]. *)
Inductive IndexEffect : Type :=
| CreateParserFactory
| Dispose
| ReadDirectory (dirPath : string)
| ParseCode (buffername : string)
| BulkInsertChunks (rows : list (ChunkMeta.t unit))
| ReadFile (filePath : string)
| Log (line : string)
| LogError (line : string)
| LogErrorWith (text : string) (error : string).

(** [Array.prototype.join]. *)
Fixpoint join (sep : string) (l : list string) : string :=
  match l with
  | [] => ""
  | x :: t =>
      match t with
      | [] => x
      | _ => x ++ sep ++ join sep t
      end
  end.

(** The callback of [chunks.map] in both index functions; a stored chunk has
    no distance. *)
Definition toChunkMeta `{NodePath} (c : BoundaryChunk.t) : ChunkMeta.t unit :=
  {| ChunkMeta.content := BoundaryChunk.content c;
     ChunkMeta.filepath := BoundaryChunk.filePath c;
     ChunkMeta.fileName := basename (BoundaryChunk.filePath c);
     ChunkMeta.inlineDocument :=
       match Boundary.docs (BoundaryChunk.boundary c) with
       | Some d => d
       | None => ""
       end;
     ChunkMeta.parentInfo :=
       match Boundary.parent (BoundaryChunk.boundary c) with
       | Some p => join "." p
       | None => ""
       end;
     ChunkMeta.entity :=
       match Boundary.name (BoundaryChunk.boundary c) with
       | Some n => n
       | None => ""
       end;
     ChunkMeta.language := BoundaryChunk.language c;
     ChunkMeta.cursorInfo :=
       {| CursorInfo.start := BoundaryChunk.start c;
          CursorInfo.end_ := BoundaryChunk.end_ c |};
     ChunkMeta.distance := tt |}.

Definition emit (e : IndexEffect) : M (list IndexEffect) unit :=
  modify (fun log => (log ++ [e])%list).

Definition await {S A : Type} (p : Promise A) : M S A :=
  fun s =>
    match p with
    | Resolved a => Returned a s
    | Rejected e => Thrown e s
    end.

(** [try { body } finally { cleanup }]. *)
Definition try_finally {S A : Type} (body : M S A) (cleanup : M S unit)
  : M S A :=
  fun s =>
    match body s with
    | Returned a s' =>
        match cleanup s' with
        | Returned _ s'' => Returned a s''
        | Thrown e s'' => Thrown e s''
        end
    | Thrown e s' =>
        match cleanup s' with
        | Returned _ s'' => Thrown e s''
        | Thrown e' s'' => Thrown e' s''
        end
    end.

(** [try { body } catch (error) { handler }]. *)
Definition try_catch {S A : Type} (body : M S A) (handler : string -> M S A)
  : M S A :=
  fun s =>
    match body s with
    | Returned a s' => Returned a s'
    | Thrown e s' => handler e s'
    end.

Module Indexing.
Section WithEnv.
Context `{NodePath} (env : IndexEnv).
Local Open Scope js_scope.

(** [FlfDirCore.indexDirectory]. *)
Definition indexDirectory {number : Type} (this : FlfDirCore.t number)
  (dirPath : string) : M (list IndexEffect) nat :=
  match FlfDirCore.db this with
  | None => throw "DB must be initialized before indexing."
  | Some _ =>
      emit CreateParserFactory ;;
      try_finally
        (emit (ReadDirectory dirPath) ;;
         chunks <- await (readDirectoryAndChunk env dirPath) ;;
         emit (BulkInsertChunks (map toChunkMeta chunks)) ;;
         ret (List.length chunks))
        (emit Dispose)
  end.

(** [loadBufferInfoAsync] and [loadBufferInfoSync].  What [readFile] and
    [JSON.parse] throw is an [Error], so the [catch] block takes its first
    branch: [console.error(text, error.message)]. *)
Definition loadBufferInfoAsync (filePath : string)
  : M (list IndexEffect) (list BufferInfo.t) :=
  try_catch
    (emit (ReadFile filePath) ;;
     data <- await (readFile env filePath) ;;
     bufferInfo <- await (JSON_parse env data) ;;
     ret bufferInfo)
    (fun error =>
       emit (LogErrorWith
               ("Error reading or parsing JSON file asynchronously: "
                  ++ filePath) error) ;;
       throw error).

Definition loadBufferInfoSync (filePath : string)
  : M (list IndexEffect) (list BufferInfo.t) :=
  try_catch
    (emit (ReadFile filePath) ;;
     data <- await (readFile env filePath) ;;
     bufferInfo <- await (JSON_parse env data) ;;
     ret bufferInfo)
    (fun error =>
       emit (LogErrorWith
               ("Error reading or parsing JSON file synchronously: "
                  ++ filePath) error) ;;
       throw error).

(** The [for ... of] loop of [FlfBufferCore.index]. *)
Fixpoint parseAll (bufferInfo : list BufferInfo.t)
  (chunks : list BoundaryChunk.t)
  : M (list IndexEffect) (list BoundaryChunk.t) :=
  match bufferInfo with
  | [] => ret chunks
  | bi :: rest =>
      emit (ParseCode (BufferInfo.buffername bi)) ;;
      i <- await (parseCodeWithFilePath env (BufferInfo.content bi)
                    (BufferInfo.buffername bi)) ;;
      parseAll rest (chunks ++ i)%list
  end.

(** [FlfBufferCore.index]. *)
Definition index {number : Type} (this : FlfBufferCore.t number)
  (bufferInfoPath : string) : M (list IndexEffect) nat :=
  match FlfBufferCore.db this with
  | None => throw "DB must be initialized before indexing."
  | Some _ =>
      bufferInfo <- loadBufferInfoAsync bufferInfoPath ;;
      emit CreateParserFactory ;;
      try_finally
        (chunks <- parseAll bufferInfo [] ;;
         emit (BulkInsertChunks (map toChunkMeta chunks)) ;;
         ret (List.length chunks))
        (emit Dispose)
  end.

End WithEnv.
End Indexing.

(** [JSON.stringify] of an object whose values are strings. *)
Fixpoint JSON_fields (fields : list (string * string)) : string :=
  match fields with
  | [] => ""
  | (name, value) :: rest =>
      JSON_key name ++ value
        ++ match rest with
           | [] => ""
           | _ => "," ++ JSON_fields rest
           end
  end.

Definition JSON_object (fields : list (string * string)) : string :=
  "{" ++ JSON_fields fields ++ "}".




(** [class FlfCodeSearchUI], the print interface of src/dircore.ts. *)
Module FlfCodeSearchUI.
Section WithEnv.
Context `{NodePath} (env : IndexEnv) {number : Type} `{JSNumber number}.
Local Open Scope js_scope.

Record t : Type := mk {
  core : option (FlfDirCore.t number);
  isJsonOutput : bool }.

Definition executeIndex (this : t) (dirPath : string)
  : M (list IndexEffect) unit :=
  match core this with
  | None => throw "Core must be initialized before indexing."
  | Some core =>
      try_catch
        (indexedCount <- Indexing.indexDirectory env core dirPath ;;
         if (indexedCount =? 0)%nat then throw "indexedCount is undefined."
         else if (0 <? indexedCount)%nat then
           if isJsonOutput this then
             emit (Log (JSON_object
                          [("status", JSON_string "success");
                           ("message",
                            JSON_string
                              ("Indexed "
                                 ++ Number_toString (N.of_nat indexedCount)
                                 ++ " code chunks."));
                           ("directory", JSON_string (resolve dirPath))]))
           else
             emit (Log ("Indexed " ++ Number_toString (N.of_nat indexedCount)
                          ++ " code chunks."))
         else
           if isJsonOutput this then
             emit (Log (JSON_object
                          [("status", JSON_string "success");
                           ("message",
                            JSON_string "No code chunks found to index.");
                           ("directory", JSON_string (resolve dirPath))]))
           else emit (Log "No code chunks found to index."))
        (fun error =>
           if isJsonOutput this then
             emit (LogError
                     (JSON_object
                        [("status", JSON_string "error");
                         ("message",
                          JSON_string
                            ("Error during directory indexing: " ++ error));
                         ("directory", JSON_string (resolve dirPath))]))
           else emit (LogErrorWith "Error during directory indexing:" error))
  end.





End WithEnv.
Arguments t : clear implicits.
End FlfCodeSearchUI.

(** The lines written with [console.log]. *)
Fixpoint logged (log : list IndexEffect) : list string :=
  match log with
  | [] => []
  | Log line :: rest => line :: logged rest
  | _ :: rest => logged rest
  end.

(** The rows handed to [bulkInsertChunks], call by call. *)
Fixpoint inserted (log : list IndexEffect) : list (list (ChunkMeta.t unit)) :=
  match log with
  | [] => []
  | BulkInsertChunks rows :: rest => rows :: inserted rest
  | _ :: rest => inserted rest
  end.

(** The parser factories created and not yet disposed of. *)
Fixpoint openFactories (log : list IndexEffect) (n : Z) : Z :=
  match log with
  | [] => n
  | CreateParserFactory :: rest => openFactories rest (n + 1)
  | Dispose :: rest => openFactories rest (n - 1)
  | _ :: rest => openFactories rest n
  end.

(** A sample environment: one directory with two chunks, one buffer file
    with two buffers of which the second does not parse. *)
#[export] Instance samplePath : NodePath :=
  {| basename := fun p => p; resolve := fun p => "/work/" ++ p |}.

Definition sampleChunk (path name : string) : BoundaryChunk.t :=
  {| BoundaryChunk.content := "function " ++ name ++ "() {}";
     BoundaryChunk.filePath := path;
     BoundaryChunk.boundary :=
       {| Boundary.docs := None;
          Boundary.parent := Some ["Outer"; "Inner"];
          Boundary.name := Some name |};
     BoundaryChunk.language := "typescript";
     BoundaryChunk.start := point 0 0;
     BoundaryChunk.end_ := point 2 1 |}.

Definition sampleEnv : IndexEnv :=
  {| readDirectoryAndChunk := fun dirPath =>
       if String.eqb dirPath "src" then
         Resolved [sampleChunk "src/a.ts" "foo"; sampleChunk "src/b.ts" "fob"]
       else if String.eqb dirPath "empty" then Resolved []
       else Rejected "ENOENT";
     parseCodeWithFilePath := fun content buffername =>
       if String.eqb content "" then Rejected "nothing to parse"
       else Resolved [sampleChunk buffername content];
     readFile := fun filePath =>
       if String.eqb filePath "buffers.json" then Resolved "two"
       else Rejected "ENOENT";
     JSON_parse := fun data =>
       if String.eqb data "two" then
         Resolved [BufferInfo.mk "a.ts" "foo"; BufferInfo.mk "b.ts" ""]
       else Rejected "Unexpected token" |}.

(** The two panes agree with the results held by the console: the list
    shows one title per result, and when there are results the cursor is on
    one of them and the preview shows its content and language. *)
Definition panes_in_sync {C W : Type} `{ListElement W}
  (this : FluentFinderUI.t C W) : Prop :=
  items (FluentFinderUI.list_ this)
  = map FluentFinderUI.convertListItemToListTitle
      (FluentFinderUI.currentResult this) /\
  (FluentFinderUI.currentResult this <> [] ->
   exists item,
     Array_get (FluentFinderUI.currentResult this)
       (selected (FluentFinderUI.list_ this)) = Some item /\
     FluentFinderUI.preview this
     = (ListItem.content item, ListItem.language item)).



(** An item of a buffer whose name holds a line feed; a buffer name is any
    string of the buffer file. *)
Definition twoLineItem : ListItem.t :=
  {| ListItem.filePath := "notes" ++ String newline "draft.ts";
     ListItem.entity := "foo";
     ListItem.content := "function foo() {}";
     ListItem.language := "typescript";
     ListItem.cursorInfo := span 4 6 |}.

(** * Properties *)

(** ** Lists and strings *)

Lemma nth_error_map_from {A B : Type} (f : A -> nat -> B) (l : list A) :
  forall k i,
    nth_error (map_from f k l) i
    = option_map (fun x => f x (k + i)%nat) (nth_error l i).
Proof.
  induction l as [|x t IH]; intros k i.
  - destruct i; reflexivity.
  - destruct i as [|i]; simpl.
    + now rewrite Nat.add_0_r.
    + rewrite IH. now rewrite Nat.add_succ_r.
Qed.

Lemma length_map_from {A B : Type} (f : A -> nat -> B) (l : list A) :
  forall k, List.length (map_from f k l) = List.length l.
Proof.
  induction l as [|x t IH]; intros k; simpl; [reflexivity|].
  now rewrite IH.
Qed.

Lemma substring_0_length (s : string) :
  forall n, String.length (substring 0 n s) = Nat.min n (String.length s).
Proof.
  induction s as [|c t IH]; intros [|n]; simpl; try reflexivity.
  now rewrite IH.
Qed.

Lemma substring_0_prefix (s : string) :
  forall n, exists rest, s = substring 0 n s ++ rest.
Proof.
  induction s as [|c t IH]; intros [|n]; simpl.
  - now exists "".
  - now exists "".
  - now exists (String c t).
  - destruct (IH n) as [rest Hrest]. exists rest. now rewrite <- Hrest.
Qed.

Lemma substring_0_all (s : string) :
  forall n, (String.length s <= n)%nat -> substring 0 n s = s.
Proof.
  induction s as [|c t IH]; intros [|n] Hlen; simpl in *; try reflexivity.
  - lia.
  - rewrite IH by lia. reflexivity.
Qed.

Lemma has_newline_app (a b : string) :
  has_newline (a ++ b) = has_newline a || has_newline b.
Proof.
  induction a as [|c t IH]; simpl; [reflexivity|].
  rewrite IH. now rewrite orb_assoc.
Qed.

Lemma has_newline_digits (d : Decimal.uint) :
  has_newline (NilEmpty.string_of_uint d) = false.
Proof. induction d; simpl; auto. Qed.

Lemma has_newline_Number (n : N) : has_newline (Number_toString n) = false.
Proof.
  unfold Number_toString, NilZero.string_of_uint.
  destruct (N.to_uint n) eqn:E; try reflexivity;
    rewrite <- E; apply has_newline_digits.
Qed.

(** ** The search cores *)

Section Cores.
Context {number : Type} `{JSNumber number}.

Lemma search_resolves (db : VeqliteDB number) (props : QueryProps.t)
  (rows : list (ChunkMeta.t number)) :
  searchSimilar db (QueryProps.queryText props) (QueryProps.k props)
  = Resolved rows ->
  let res :=
    Array_map_index (toSearchResult (QueryProps.isJsonOutput props)) rows in
  FlfDirCore.search (FlfDirCore.mk (Some db)) props = Resolved res /\
  FlfBufferCore.search (FlfBufferCore.mk (Some db)) props = Resolved res.
Proof.
  intros Hrows res. unfold FlfDirCore.search, FlfBufferCore.search; simpl.
  now rewrite Hrows.
Qed.

Lemma nth_error_search_rows (isJsonOutput : bool)
  (rows : list (ChunkMeta.t number)) (i : nat) (row : ChunkMeta.t number) :
  nth_error rows i = Some row ->
  nth_error (Array_map_index (toSearchResult isJsonOutput) rows) i
  = Some (toSearchResult isJsonOutput row i).
Proof.
  intros Hrow. unfold Array_map_index.
  rewrite nth_error_map_from, Hrow. reflexivity.
Qed.

(** C6: every search that resolves returns a list whose element at position
    [i] (0-based) has rank [i + 1], so that ranks are 1-based and ascending in
    list order, and whose score is the backend distance of the row at that
    position rendered by [toFixed(4)]. *)
Theorem search_rank_and_score (db : VeqliteDB number) (props : QueryProps.t)
  (rows : list (ChunkMeta.t number)) :
  searchSimilar db (QueryProps.queryText props) (QueryProps.k props)
  = Resolved rows ->
  exists res,
    FlfDirCore.search (FlfDirCore.mk (Some db)) props = Resolved res /\
    FlfBufferCore.search (FlfBufferCore.mk (Some db)) props = Resolved res /\
    List.length res = List.length rows /\
    (forall i row,
        nth_error rows i = Some row ->
        exists r,
          nth_error res i = Some r /\
          SearchResult.rank r = (Z.of_nat i + 1)%Z /\
          SearchResult.score r = toFixed (ChunkMeta.distance row) 4) /\
    (forall i j ri rj,
        (i < j)%nat ->
        nth_error res i = Some ri ->
        nth_error res j = Some rj ->
        (1 <= SearchResult.rank ri < SearchResult.rank rj)%Z).
Proof.
  intros Hrows.
  destruct (search_resolves db props rows Hrows) as [Hdir Hbuf].
  eexists. split; [exact Hdir|]. split; [exact Hbuf|].
  split; [apply length_map_from|]. split.
  - intros i row Hrow.
    eexists. split; [apply nth_error_search_rows, Hrow|]. split; reflexivity.
  - intros i j ri rj Hij Hi Hj.
    unfold Array_map_index in Hi, Hj. rewrite nth_error_map_from in Hi, Hj.
    destruct (nth_error rows i); simpl in Hi; [|discriminate].
    destruct (nth_error rows j); simpl in Hj; [|discriminate].
    injection Hi as <-. injection Hj as <-. simpl. lia.
Qed.

(** C10: in every search that resolves, the snippet of a result is the whole
    stored content when [isJsonOutput] is set, and otherwise the first 100
    characters of the content followed by ["..."]; the suffix is there also
    when the content is shorter than 100 characters, in which case the
    snippet is the content followed by ["..."]. *)
Theorem search_contentSnippet (db : VeqliteDB number) (props : QueryProps.t)
  (rows : list (ChunkMeta.t number)) :
  searchSimilar db (QueryProps.queryText props) (QueryProps.k props)
  = Resolved rows ->
  exists res,
    FlfDirCore.search (FlfDirCore.mk (Some db)) props = Resolved res /\
    FlfBufferCore.search (FlfBufferCore.mk (Some db)) props = Resolved res /\
    forall i row,
      nth_error rows i = Some row ->
      let content := ChunkMeta.content row in
      let head := substring 0 100 content in
      exists r,
        nth_error res i = Some r /\
        SearchResult.contentSnippet r
        = (if QueryProps.isJsonOutput props then content else head ++ "...") /\
        String.length head = Nat.min 100 (String.length content) /\
        (exists rest, content = head ++ rest) /\
        ((String.length content <= 100)%nat -> head = content).
Proof.
  intros Hrows.
  destruct (search_resolves db props rows Hrows) as [Hdir Hbuf].
  eexists. split; [exact Hdir|]. split; [exact Hbuf|].
  intros i row Hrow content head.
  eexists. split; [apply nth_error_search_rows, Hrow|].
  split; [reflexivity|]. split; [apply substring_0_length|].
  split; [apply substring_0_prefix|apply substring_0_all].
Qed.

End Cores.

(** ** Sorting by rank *)

Lemma sort_insert_front {A : Type} (cmp : A -> A -> Z) (x : A) (l : list A) :
  ascending cmp (x :: l) -> sort_insert cmp x l = x :: l.
Proof.
  destruct l as [|y t]; simpl; [reflexivity|].
  intros [Hxy _]. apply Z.leb_le in Hxy. now rewrite Hxy.
Qed.

Lemma Array_sort_ascending {A : Type} (cmp : A -> A -> Z) (l : list A) :
  ascending cmp l -> Array_sort cmp l = l.
Proof.
  induction l as [|x t IH]; [reflexivity|].
  intros Hasc. unfold Array_sort in *. simpl fold_right.
  rewrite IH by apply Hasc. now apply sort_insert_front.
Qed.

Lemma search_results_ascending {number : Type} `{JSNumber number}
  (isJsonOutput : bool) (rows : list (ChunkMeta.t number)) :
  forall k,
    ascending FluentFinderUI.byRank
      (map_from (toSearchResult isJsonOutput) k rows).
Proof.
  induction rows as [|row t IH]; intros k; [exact I|].
  split; [|apply IH].
  destruct t; simpl; [exact I|].
  unfold FluentFinderUI.byRank. simpl. lia.
Qed.

(** ** The console *)

Ltac run_method :=
  unfold FluentFinderUI.updateList, FluentFinderUI.updatePreview,
    FluentFinderUI.updatePreviewWithTitle, FluentFinderUI.showResult,
    FluentFinderUI.destroyTTY, FluentFinderUI.bindKeys_callback,
    FluentFinderUI.perform, FluentFinderUI.set_list,
    FluentFinderUI.set_preview, FluentFinderUI.set_currentResult,
    bind, gets, modify, ret, throw, DEBUG;
  cbn [FluentFinderUI.core FluentFinderUI.list_ FluentFinderUI.preview
       FluentFinderUI.currentResult FluentFinderUI.options FluentFinderUI.io].

Section ConsoleFacts.
Context {C W : Type} `{IFlfCore C} `{ListElement W}.

Lemma updateList_returns (shown : list ListItem.t) (this : FluentFinderUI.t C W) :
  FluentFinderUI.updateList shown this
  = Returned tt
      (FluentFinderUI.mk (FluentFinderUI.core this)
         (let w :=
            setItems (clearItems (FluentFinderUI.list_ this))
              (map FluentFinderUI.convertListItemToListTitle shown) in
          if (0 <? List.length shown)%nat then select w 0 else w)
         (match Array_at shown 0 with
          | Some i => ListItem.content i
          | None => ""
          end,
          match Array_at shown 0 with
          | Some i => ListItem.language i
          | None => ""
          end)
         shown (FluentFinderUI.options this)
         (FluentFinderUI.io this ++ [ScreenRender])%list).
Proof.
  run_method. destruct shown; reflexivity.
Qed.

Lemma resume_returns (res : list SearchResult.t) (this : FluentFinderUI.t C W) :
  exists this',
    FluentFinderUI.handleQueryChange_resume res this = Returned tt this' /\
    FluentFinderUI.core this' = FluentFinderUI.core this /\
    FluentFinderUI.options this' = FluentFinderUI.options this /\
    FluentFinderUI.currentResult this'
    = map FluentFinderUI.toListItem (Array_sort FluentFinderUI.byRank res) /\
    FluentFinderUI.list_ this'
    = FluentFinderUI.list_
        (state_of
           (FluentFinderUI.updateList
              (map FluentFinderUI.toListItem
                 (Array_sort FluentFinderUI.byRank res)) this)) /\
    FluentFinderUI.io this'
    = (FluentFinderUI.io this ++ [ScreenRender; ScreenRender])%list.
Proof.
  unfold FluentFinderUI.handleQueryChange_resume, bind.
  rewrite updateList_returns. eexists. split; [reflexivity|].
  cbn. rewrite <- app_assoc. repeat split.
Qed.

Context `{!ListElementLaws W}.

Lemma clamp_0 (len : nat) : (0 < len)%nat -> clamp len 0 = 0%Z.
Proof. unfold clamp. lia. Qed.

Lemma clamp_range (len : nat) (i : Z) :
  (0 < len)%nat -> (0 <= clamp len i < Z.of_nat len)%Z.
Proof. unfold clamp. lia. Qed.

Lemma updateList_list (shown : list ListItem.t) (this : FluentFinderUI.t C W) :
  let this' := state_of (FluentFinderUI.updateList shown this) in
  items (FluentFinderUI.list_ this')
  = map FluentFinderUI.convertListItemToListTitle shown /\
  (shown <> [] -> selected (FluentFinderUI.list_ this') = 0%Z).
Proof.
  rewrite updateList_returns. cbn.
  destruct shown as [|item rest]; cbn.
  - split; [apply items_setItems|]. congruence.
  - split; [rewrite items_select; apply items_setItems|].
    intros _. rewrite selected_select.
    + rewrite items_setItems. apply clamp_0. simpl. lia.
    + rewrite items_setItems. discriminate.
Qed.

End ConsoleFacts.

#[export] Instance SimpleList_laws : ListElementLaws SimpleList.t.
Proof.
  split; try reflexivity.
Qed.


(** C7: the results of a search are already in ascending rank order, so the
    sort by rank in the console is the identity on them, and what the console
    displays for such a response is the backend's sequence, item by item. *)
Theorem console_keeps_backend_order {number : Type} `{JSNumber number}
  {C W : Type} `{IFlfCore C} `{ListElement W} `{!ListElementLaws W}
  (dir : FlfDirCore.t number) (buf : FlfBufferCore.t number)
  (props : QueryProps.t) (res : list SearchResult.t)
  (this : FluentFinderUI.t C W) :
  FlfDirCore.search dir props = Resolved res \/
  FlfBufferCore.search buf props = Resolved res ->
  Array_sort FluentFinderUI.byRank res = res /\
  exists this',
    FluentFinderUI.handleQueryChange_resume res this = Returned tt this' /\
    FluentFinderUI.currentResult this' = map FluentFinderUI.toListItem res /\
    items (FluentFinderUI.list_ this')
    = map FluentFinderUI.convertListItemToListTitle
        (map FluentFinderUI.toListItem res).
Proof.
  intros Hsearch.
  assert (Hsorted : Array_sort FluentFinderUI.byRank res = res).
  { apply Array_sort_ascending.
    destruct Hsearch as [Hs|Hs];
      [unfold FlfDirCore.search in Hs|unfold FlfBufferCore.search in Hs].
    - destruct (FlfDirCore.db dir); [|discriminate].
      destruct (searchSimilar _ _ _); [|discriminate].
      injection Hs as <-. apply search_results_ascending.
    - destruct (FlfBufferCore.db buf); [|discriminate].
      destruct (searchSimilar _ _ _); [|discriminate].
      injection Hs as <-. apply search_results_ascending. }
  split; [exact Hsorted|].
  destruct (resume_returns res this) as (this' & Hrun & _ & _ & Hcur & Hlist & _).
  exists this'. split; [exact Hrun|]. rewrite Hsorted in *.
  split; [exact Hcur|]. rewrite Hlist. apply updateList_list.
Qed.

Lemma console_keeps_backend_order_witness :
  exists res,
    FlfDirCore.search sampleCore (FluentFinderUI.searchProps "f") = Resolved res /\
    Array_sort FluentFinderUI.byRank res = res.
Proof.
  eexists. split; [reflexivity|].
  apply (console_keeps_backend_order sampleCore (FlfBufferCore.mk None)
           (FluentFinderUI.searchProps "f") _ (Session.ui sampleSession)).
  left. reflexivity.
Defined.

Lemma search_rank_and_score_witness :
  exists res,
    FlfDirCore.search sampleCore (FluentFinderUI.searchProps "f") = Resolved res /\
    List.length res = 2%nat.
Proof.
  destruct (search_rank_and_score sampleDb (FluentFinderUI.searchProps "f")
              [chunkA; chunkB] eq_refl) as (res & Hdir & _ & Hlen & _).
  exists res. split; [exact Hdir|exact Hlen].
Defined.

Lemma search_contentSnippet_witness :
  exists res,
    FlfBufferCore.search (FlfBufferCore.mk (Some sampleDb))
      (QueryProps.mk "fo" 20 false ".flf.db")
    = Resolved res /\
    exists r,
      nth_error res 0 = Some r /\
      SearchResult.contentSnippet r = "function fob() {}...".
Proof.
  destruct (search_contentSnippet sampleDb (QueryProps.mk "fo" 20 false ".flf.db")
              [chunkB] eq_refl) as (res & _ & Hbuf & Hsnip).
  exists res. split; [exact Hbuf|].
  destruct (Hsnip 0%nat chunkB eq_refl) as (r & Hr & Hs & _).
  exists r. split; [exact Hr|exact Hs].
Defined.

(** ** The keypress handler up to its await *)

Lemma stdout_app (a b : list Effect) :
  Session.stdout (a ++ b) = (Session.stdout a ++ Session.stdout b)%list.
Proof.
  induction a as [|e a IH]; [reflexivity|].
  destruct e; simpl; rewrite IH; reflexivity.
Qed.

Lemma Array_get_in_range {A : Type} (l : list A) (i : Z) :
  (0 <= i < Z.of_nat (List.length l))%Z -> exists x, Array_get l i = Some x.
Proof.
  intros Hi. unfold Array_get.
  destruct (i <? 0)%Z eqn:E; [apply Z.ltb_lt in E; lia|].
  destruct (nth_error l (Z.to_nat i)) eqn:En; [now eexists|].
  apply nth_error_None in En. lia.
Qed.

Lemma Array_get_nil {A : Type} (i : Z) : Array_get (@nil A) i = None.
Proof.
  unfold Array_get. destruct (i <? 0)%Z; [reflexivity|].
  now destruct (Z.to_nat i).
Qed.

Section BeginFacts.
Context {C W : Type} `{IFlfCore C} `{ListElement W}.

Lemma begin_navigation (value : string) (key : KeyInput)
  (this : FluentFinderUI.t C W) :
  is_navigation key = true ->
  let w := navigated key (FluentFinderUI.list_ this) in
  FluentFinderUI.handleQueryChange_begin value key this
  = match Array_get (FluentFinderUI.currentResult this) (selected w) with
    | None =>
        Thrown "selectedItem is undefined"
          (FluentFinderUI.mk (FluentFinderUI.core this) w
             (FluentFinderUI.preview this) (FluentFinderUI.currentResult this)
             (FluentFinderUI.options this) (FluentFinderUI.io this))
    | Some item =>
        Returned None
          (FluentFinderUI.mk (FluentFinderUI.core this) w
             (ListItem.content item, ListItem.language item)
             (FluentFinderUI.currentResult this) (FluentFinderUI.options this)
             (FluentFinderUI.io this ++ [ScreenRender])%list)
    end.
Proof.
  unfold is_navigation, navigated, FluentFinderUI.handleQueryChange_begin.
  destruct (key_name key) as [name|]; [|discriminate].
  intros Hnav. apply orb_true_iff in Hnav.
  destruct Hnav as [Hup|Hdown].
  - apply String.eqb_eq in Hup. subst name. cbn [String.eqb Ascii.eqb Bool.eqb].
    run_method.
    destruct (Array_get _ _); reflexivity.
  - apply String.eqb_eq in Hdown. subst name. cbn [String.eqb Ascii.eqb Bool.eqb].
    run_method.
    destruct (Array_get _ _); reflexivity.
Qed.

(** With a selected item, [enter] destroys the screen, prints, and only then
    releases the terminal; without one it does nothing before the search. *)
Lemma begin_enter (value : string) (key : KeyInput)
  (this : FluentFinderUI.t C W) :
  key_name key = Some "enter" ->
  FluentFinderUI.handleQueryChange_begin value key this
  = match Array_at (FluentFinderUI.currentResult this)
            (selected (FluentFinderUI.list_ this)) with
    | Some item =>
        Returned (Some (trim value))
          (FluentFinderUI.mk (FluentFinderUI.core this)
             (FluentFinderUI.list_ this) (FluentFinderUI.preview this)
             (FluentFinderUI.currentResult this) (FluentFinderUI.options this)
             (FluentFinderUI.io this
                ++ ScreenDestroy
                   :: ConsoleLog
                        (FlfDirCore.formatResult item
                           (UIOptions.editor (FluentFinderUI.options this)))
                   :: release)%list)
    | None => Returned (Some (trim value)) this
    end.
Proof.
  intros Hname. unfold FluentFinderUI.handleQueryChange_begin.
  rewrite Hname. cbn [String.eqb Ascii.eqb Bool.eqb].
  run_method.
  destruct (Array_at _ _) as [item|]; [|reflexivity].
  destruct (UIOptions.editor _); cbn; rewrite <- !app_assoc; reflexivity.
Qed.

(** Every key but [up] and [down] reaches the search; only [enter] can write
    to standard output on the way. *)
Lemma begin_other (value : string) (key : KeyInput)
  (this : FluentFinderUI.t C W) :
  is_navigation key = false ->
  exists query this',
    FluentFinderUI.handleQueryChange_begin value key this
    = Returned (Some query) this' /\
    FluentFinderUI.core this' = FluentFinderUI.core this /\
    FluentFinderUI.list_ this' = FluentFinderUI.list_ this /\
    FluentFinderUI.currentResult this' = FluentFinderUI.currentResult this /\
    FluentFinderUI.options this' = FluentFinderUI.options this /\
    (key_name key <> Some "enter" ->
     Session.stdout (FluentFinderUI.io this')
     = Session.stdout (FluentFinderUI.io this)).
Proof.
  intros Hnav.
  destruct (key_name key) as [name|] eqn:Hname.
  2:{ unfold FluentFinderUI.handleQueryChange_begin. rewrite Hname.
      do 2 eexists. split; [reflexivity|]. repeat split. }
  destruct (String.eqb name "enter") eqn:Henter.
  { apply String.eqb_eq in Henter. subst name.
    rewrite (begin_enter value key this Hname).
    destruct (Array_at _ _); do 2 eexists; (split; [reflexivity|]);
      repeat split; congruence. }
  unfold is_navigation in Hnav. rewrite Hname in Hnav.
  apply orb_false_iff in Hnav. destruct Hnav as [Hup Hdown].
  unfold FluentFinderUI.handleQueryChange_begin. rewrite Hname, Henter, Hup, Hdown.
  destruct (String.eqb name "backspace");
    [do 2 eexists; split; [reflexivity|]; repeat split|].
  destruct (negb (key_modified key) && (String.length name =? 1)%nat);
    [do 2 eexists; split; [reflexivity|]; repeat split|].
  destruct (key_ctrl key && String.eqb name "c");
    [|do 2 eexists; split; [reflexivity|]; repeat split].
  run_method. do 2 eexists. split; [reflexivity|]. cbn.
  repeat split. intros _. rewrite !stdout_app. cbn. now rewrite !app_nil_r.
Qed.

End BeginFacts.

(** ** Navigation *)

Section Navigation.
Context {C W : Type} `{IFlfCore C} `{ListElement W} `{!ListElementLaws W}.

Lemma navigated_items (key : KeyInput) (w : W) :
  items (navigated key w) = items w.
Proof.
  unfold navigated. destruct (key_name key) as [name|]; [|reflexivity].
  destruct (String.eqb name "up"); [apply items_up|apply items_down].
Qed.

Lemma navigated_in_range (key : KeyInput) (w : W) :
  is_navigation key = true ->
  items w <> [] ->
  (0 <= selected (navigated key w) < Z.of_nat (List.length (items w)))%Z.
Proof.
  unfold is_navigation, navigated.
  destruct (key_name key) as [name|]; [|discriminate].
  intros _ Hrows.
  assert (0 < List.length (items w))%nat
    by (destruct (items w); [congruence|simpl; lia]).
  destruct (String.eqb name "up");
    [rewrite selected_up|rewrite selected_down];
    try assumption; now apply clamp_range.
Qed.

Lemma navigation_nonempty (evs : list Session.Event) :
  forall s : Session.t C W,
    forallb navigation_event evs = true ->
    let this := Session.ui s in
    let len := List.length (FluentFinderUI.currentResult this) in
    FluentFinderUI.currentResult this <> [] ->
    List.length (items (FluentFinderUI.list_ this)) = len ->
    (0 <= selected (FluentFinderUI.list_ this) < Z.of_nat len)%Z ->
    let this' := Session.ui (Session.run evs s) in
    FluentFinderUI.currentResult this' = FluentFinderUI.currentResult this /\
    (0 <= selected (FluentFinderUI.list_ this') < Z.of_nat len)%Z /\
    Session.uncaught (Session.run evs s) = Session.uncaught s.
Proof.
  induction evs as [|ev evs IH]; intros s Hevs this len Hne Hlen Hsel.
  - cbn. auto.
  - cbn in Hevs. apply andb_true_iff in Hevs. destruct Hevs as [Hev Hevs].
    destruct ev as [value key| |request]; try discriminate.
    cbn in Hev. cbn [Session.run fold_left Session.step].
    assert (Hrows : items (FluentFinderUI.list_ this) <> []).
    { intros Hnil. rewrite Hnil in Hlen. subst len.
      destruct (FluentFinderUI.currentResult this); [congruence|discriminate]. }
    pose proof (navigated_in_range key _ Hev Hrows) as Hrange.
    rewrite Hlen in Hrange.
    destruct (Array_get_in_range (FluentFinderUI.currentResult this) _ Hrange)
      as [item Hitem].
    pose proof (begin_navigation value key this Hev) as Hbegin.
    cbv zeta in Hbegin. rewrite Hitem in Hbegin.
    specialize (IH (Session.keypress value key s) Hevs).
    unfold Session.keypress in *. fold this in IH |- *.
    rewrite Hbegin in *. cbn in IH. cbn.
    apply IH; try assumption.
    rewrite navigated_items. exact Hlen.
Qed.

Lemma navigation_empty (evs : list Session.Event) :
  forall s : Session.t C W,
    forallb navigation_event evs = true ->
    FluentFinderUI.currentResult (Session.ui s) = [] ->
    FluentFinderUI.currentResult (Session.ui (Session.run evs s)) = [] /\
    Session.uncaught (Session.run evs s)
    = (Session.uncaught s
         ++ repeat "selectedItem is undefined" (List.length evs))%list.
Proof.
  induction evs as [|ev evs IH]; intros s Hevs Hnil.
  - cbn. now rewrite app_nil_r.
  - cbn in Hevs. apply andb_true_iff in Hevs. destruct Hevs as [Hev Hevs].
    destruct ev as [value key| |request]; try discriminate.
    cbn in Hev. cbn [Session.run fold_left Session.step].
    pose proof (begin_navigation value key (Session.ui s) Hev) as Hbegin.
    cbv zeta in Hbegin. rewrite Hnil, Array_get_nil in Hbegin.
    specialize (IH (Session.keypress value key s) Hevs).
    unfold Session.keypress in *. rewrite Hbegin in *. cbn in IH.
    destruct (IH eq_refl) as [Hcur Hunc]. split; [exact Hcur|].
    unfold Session.run in *. rewrite Hunc. cbn. now rewrite <- app_assoc.
Qed.

(** C2 (amended): take any displayed list, with as many rows as items and,
    when it is not empty, the cursor on one of them (which is how
    [updateList] leaves it), and any sequence of [up] and [down] keypresses.
    The list stays the same.  If it is not empty the cursor stays within
    [0 .. L-1], it selects an item, and every keypress completes.  If it is
    empty no item is selected and every one of the keypresses throws
    ["selectedItem is undefined"] from [updatePreview], which nothing
    catches. *)
Theorem navigation_keeps_cursor_in_range (shown : list ListItem.t)
  (s : Session.t C W) (evs : list Session.Event) :
  FluentFinderUI.currentResult (Session.ui s) = shown ->
  List.length (items (FluentFinderUI.list_ (Session.ui s))) = List.length shown ->
  (shown <> [] ->
   (0 <= selected (FluentFinderUI.list_ (Session.ui s))
    < Z.of_nat (List.length shown))%Z) ->
  forallb navigation_event evs = true ->
  let s' := Session.run evs s in
  let cursor := selected (FluentFinderUI.list_ (Session.ui s')) in
  FluentFinderUI.currentResult (Session.ui s') = shown /\
  (shown <> [] ->
   (0 <= cursor < Z.of_nat (List.length shown))%Z /\
   (exists item, Array_get shown cursor = Some item) /\
   Session.uncaught s' = Session.uncaught s) /\
  (shown = [] ->
   Array_get shown cursor = None /\
   Session.uncaught s'
   = (Session.uncaught s
        ++ repeat "selectedItem is undefined" (List.length evs))%list).
Proof.
  intros Hcur Hrows Hsel Hevs s' cursor.
  destruct shown as [|item rest].
  - destruct (navigation_empty evs s Hevs Hcur) as [Hcur' Hunc].
    split; [exact Hcur'|]. split; [congruence|].
    intros _. split; [apply Array_get_nil|exact Hunc].
  - assert (Hne : FluentFinderUI.currentResult (Session.ui s) <> [])
      by (rewrite Hcur; discriminate).
    destruct (navigation_nonempty evs s Hevs Hne) as (Hcur' & Hrange & Hunc).
    + now rewrite Hcur.
    + rewrite Hcur. apply Hsel. discriminate.
    + rewrite Hcur in *. split; [exact Hcur'|]. split; [|discriminate].
      intros _. split; [exact Hrange|]. split; [|exact Hunc].
      now apply Array_get_in_range.
Qed.

(** The bounds that the navigation theorem starts from hold after every
    [updateList]. *)
Lemma updateList_establishes_bounds (shown : list ListItem.t)
  (this : FluentFinderUI.t C W) :
  let this' := state_of (FluentFinderUI.updateList shown this) in
  FluentFinderUI.currentResult this' = shown /\
  List.length (items (FluentFinderUI.list_ this')) = List.length shown /\
  (shown <> [] ->
   (0 <= selected (FluentFinderUI.list_ this')
    < Z.of_nat (List.length shown))%Z).
Proof.
  destruct (updateList_list shown this) as [Htitles Hzero].
  cbv zeta in *. split; [rewrite updateList_returns; reflexivity|].
  split; [rewrite Htitles; apply length_map|].
  intros Hne. rewrite (Hzero Hne).
  destruct shown; [congruence|simpl; lia].
Qed.

End Navigation.

(** C2, as stated, fails on the empty list: the console starts with no items,
    and pressing [down] there throws. *)
Lemma navigation_on_empty_list_throws :
  FluentFinderUI.currentResult (Session.ui sampleSession) = [] /\
  FluentFinderUI.handleQueryChange "" (plainKey "down") (Session.ui sampleSession)
  = Thrown "selectedItem is undefined" (Session.ui sampleSession) /\
  Session.uncaught
    (Session.run [Session.Keypress "" (plainKey "down")] sampleSession)
  = ["selectedItem is undefined"].
Proof. repeat split. Qed.

Lemma navigation_keeps_cursor_in_range_witness :
  (0 <= selected
          (FluentFinderUI.list_
             (Session.ui
                (Session.run
                   [Session.Keypress "f" (plainKey "down");
                    Session.Keypress "f" (plainKey "down");
                    Session.Keypress "f" (plainKey "up")] answered))) < 2)%Z.
Proof.
  destruct (navigation_keeps_cursor_in_range
              (FluentFinderUI.currentResult (Session.ui answered))
              answered
              [Session.Keypress "f" (plainKey "down");
               Session.Keypress "f" (plainKey "down");
               Session.Keypress "f" (plainKey "up")])
    as (_ & Hin & _).
  - reflexivity.
  - reflexivity.
  - intros _. vm_compute. split; [discriminate|reflexivity].
  - reflexivity.
  - apply Hin. discriminate.
Defined.

(** ** Submission and cancellation *)

Section Terminating.
Context {C W : Type} `{IFlfCore C} `{ListElement W}.

(** C4 (amended): on [enter] with a selected item the console destroys the
    screen, then writes the output command to standard output, and only then
    releases the terminal (raw mode off, input paused and destroyed, output
    ended); nothing else is written.  Without a selected item it writes
    nothing and releases nothing. *)
Theorem enter_prints_then_releases (value : string) (key : KeyInput)
  (this : FluentFinderUI.t C W) :
  key_name key = Some "enter" ->
  (forall item,
      Array_at (FluentFinderUI.currentResult this)
        (selected (FluentFinderUI.list_ this)) = Some item ->
      let command :=
        FlfDirCore.formatResult item
          (UIOptions.editor (FluentFinderUI.options this)) in
      exists this',
        FluentFinderUI.handleQueryChange_begin value key this
        = Returned (Some (trim value)) this' /\
        FluentFinderUI.io this'
        = (FluentFinderUI.io this
             ++ [ScreenDestroy; ConsoleLog command; SetRawMode false;
                 TtyInPause; TtyInDestroy; TtyOutEnd])%list /\
        Session.stdout (FluentFinderUI.io this')
        = (Session.stdout (FluentFinderUI.io this) ++ [command])%list) /\
  (Array_at (FluentFinderUI.currentResult this)
     (selected (FluentFinderUI.list_ this)) = None ->
   FluentFinderUI.handleQueryChange_begin value key this
   = Returned (Some (trim value)) this).
Proof.
  intros Hname. rewrite (begin_enter value key this Hname). split.
  - intros item Hitem command. rewrite Hitem. eexists.
    split; [reflexivity|]. cbn. split; [reflexivity|].
    rewrite stdout_app. reflexivity.
  - intros Hnone. now rewrite Hnone.
Qed.




End Terminating.

(** C4, as stated, fails: with the second item selected, [enter] writes the
    command while both terminal streams are still open. *)
Lemma enter_prints_before_terminal_release :
  FluentFinderUI.io
    (state_of
       (FluentFinderUI.handleQueryChange_begin "f" (plainKey "enter")
          (Session.ui browsed)))
  = (FluentFinderUI.io (Session.ui browsed)
       ++ [ScreenDestroy; ConsoleLog "<cmd>tabf +10 src/b.ts<CR>";
           SetRawMode false; TtyInPause; TtyInDestroy; TtyOutEnd])%list /\
  output_after_release false false
    (FluentFinderUI.io
       (state_of
          (FluentFinderUI.handleQueryChange_begin "f" (plainKey "enter")
             (Session.ui browsed))))
  = false.
Proof. split; reflexivity. Qed.

Lemma enter_prints_then_releases_witness :
  exists this',
    FluentFinderUI.handleQueryChange_begin "f" (plainKey "enter")
      (Session.ui browsed)
    = Returned (Some (trim "f")) this' /\
    Session.stdout (FluentFinderUI.io this') = ["<cmd>tabf +10 src/b.ts<CR>"].
Proof.
  assert (Hname : key_name (plainKey "enter") = Some "enter") by reflexivity.
  assert (Hitem :
            Array_at (FluentFinderUI.currentResult (Session.ui browsed))
              (selected (FluentFinderUI.list_ (Session.ui browsed)))
            = Some (FluentFinderUI.toListItem (toSearchResult true chunkB 1)))
    by (vm_compute; reflexivity).
  destruct (enter_prints_then_releases "f" (plainKey "enter")
              (Session.ui browsed) Hname) as [Hsome _].
  destruct (Hsome _ Hitem) as (this' & Hrun & _ & Hout).
  exists this'. split; [exact Hrun|].
  rewrite Hout. vm_compute. reflexivity.
Defined.

(** ** Errors inside the handlers *)

Section Errors.
Context {C W : Type} `{IFlfCore C} `{ListElement W}.

(** C9 (amended): the keypress handler has no catch and the listener drops
    its promise, so an error raised inside it goes uncaught.  For [up] and
    [down] the handler completes exactly when an item is selected after the
    move and throws ["selectedItem is undefined"] otherwise.  For every other
    key it starts a search and completes when the search resolves; when the
    search rejects, the handler rejects with the same reason, the console is
    left as it was and the reason is recorded as uncaught. *)
Theorem handler_errors_go_uncaught (s : Session.t C W) (value : string)
  (key : KeyInput) :
  let this := Session.ui s in
  (is_navigation key = true ->
   let cursor := selected (navigated key (FluentFinderUI.list_ this)) in
   (Array_get (FluentFinderUI.currentResult this) cursor = None ->
    exists this',
      FluentFinderUI.handleQueryChange value key this
      = Thrown "selectedItem is undefined" this' /\
      Session.uncaught (Session.keypress value key s)
      = (Session.uncaught s ++ ["selectedItem is undefined"])%list) /\
   (forall item,
       Array_get (FluentFinderUI.currentResult this) cursor = Some item ->
       exists this',
         FluentFinderUI.handleQueryChange value key this = Returned tt this' /\
         Session.uncaught (Session.keypress value key s) = Session.uncaught s)) /\
  (is_navigation key = false ->
   exists query this',
     FluentFinderUI.handleQueryChange_begin value key this
     = Returned (Some query) this' /\
     Session.inflight (Session.keypress value key s)
     = (Session.inflight s
          ++ [(Session.started s,
               search (FluentFinderUI.core this)
                 (FluentFinderUI.searchProps query))])%list /\
     Session.uncaught (Session.keypress value key s) = Session.uncaught s /\
     (forall e,
         search (FluentFinderUI.core this) (FluentFinderUI.searchProps query)
         = Rejected e ->
         FluentFinderUI.handleQueryChange value key this = Thrown e this') /\
     (forall res,
         search (FluentFinderUI.core this) (FluentFinderUI.searchProps query)
         = Resolved res ->
         exists this'',
           FluentFinderUI.handleQueryChange value key this
           = Returned tt this'')) /\
  (forall request e,
      Session.pending request (Session.inflight s) = Some (Rejected e) ->
      Session.uncaught (Session.settle request s)
      = (Session.uncaught s ++ [e])%list /\
      Session.ui (Session.settle request s) = Session.ui s) /\
  (forall request res,
      Session.pending request (Session.inflight s) = Some (Resolved res) ->
      Session.uncaught (Session.settle request s) = Session.uncaught s).
Proof.
  intros this. split; [|split; [|split]].
  - intros Hnav cursor.
    pose proof (begin_navigation value key this Hnav) as Hbegin.
    cbv zeta in Hbegin. fold cursor in Hbegin. split.
    + intros Hnone. rewrite Hnone in Hbegin.
      unfold FluentFinderUI.handleQueryChange, Session.keypress, bind.
      fold this. rewrite Hbegin. eexists. split; reflexivity.
    + intros item Hitem. rewrite Hitem in Hbegin.
      unfold FluentFinderUI.handleQueryChange, Session.keypress, bind.
      fold this. rewrite Hbegin. eexists. split; reflexivity.
  - intros Hnav.
    destruct (begin_other value key this Hnav)
      as (query & this' & Hbegin & Hcore & _).
    exists query, this'. split; [exact Hbegin|].
    unfold FluentFinderUI.handleQueryChange, Session.keypress, bind.
    fold this. rewrite Hbegin, Hcore. cbn.
    split; [reflexivity|]. split; [reflexivity|]. split.
    + intros e He. now rewrite He.
    + intros res Hres. rewrite Hres.
      destruct (resume_returns res this') as (this'' & Hrun & _).
      exists this''. exact Hrun.
  - intros request e Hpending. unfold Session.settle. rewrite Hpending.
    split; reflexivity.
  - intros request res Hpending. unfold Session.settle. rewrite Hpending.
    destruct (resume_returns res (Session.ui s)) as (this' & Hrun & _).
    rewrite Hrun. reflexivity.
Qed.

End Errors.

(** C9, as stated, fails: a search that rejects makes the handler reject, and
    the rejection is neither caught nor logged, the console staying as it
    was. *)
Lemma failed_search_goes_uncaught :
  (exists this',
      FluentFinderUI.handleQueryChange "" (plainKey "!") (Session.ui sampleSession)
      = Thrown "index unavailable" this') /\
  Session.uncaught
    (Session.run [Session.Keypress "" (plainKey "!"); Session.Settle 0]
       sampleSession)
  = ["index unavailable"] /\
  FluentFinderUI.io
    (Session.ui
       (Session.run [Session.Keypress "" (plainKey "!"); Session.Settle 0]
          sampleSession))
  = FluentFinderUI.io (Session.ui sampleSession).
Proof.
  split; [eexists; vm_compute; reflexivity|].
  split; vm_compute; reflexivity.
Qed.

(** ** Responses that complete out of order *)

Section Admission.
Context {C W : Type} `{IFlfCore C} `{ListElement W} `{!ListElementLaws W}.

Lemma pending_app (request : nat) (p : Promise (list SearchResult.t))
  (l l' : list (nat * Promise (list SearchResult.t))) :
  Session.pending request l = Some p ->
  Session.pending request (l ++ l') = Some p.
Proof.
  induction l as [|[n q] l IH]; simpl; [discriminate|].
  destruct (n =? request)%nat; auto.
Qed.

Lemma pending_forget (request other : nat)
  (l : list (nat * Promise (list SearchResult.t))) :
  other <> request ->
  Session.pending request (Session.forget other l) = Session.pending request l.
Proof.
  intros Hne. induction l as [|[n q] l IH]; simpl; [reflexivity|].
  destruct (n =? other)%nat eqn:Eo.
  - apply Nat.eqb_eq in Eo. subst n.
    destruct (other =? request)%nat eqn:Er; [|exact IH].
    apply Nat.eqb_eq in Er. contradiction.
  - simpl. now rewrite IH.
Qed.

Lemma step_keeps_pending (s : Session.t C W) (ev : Session.Event)
  (request : nat) (p : Promise (list SearchResult.t)) :
  ev <> Session.Settle request ->
  Session.pending request (Session.inflight s) = Some p ->
  Session.pending request (Session.inflight (Session.step s ev)) = Some p.
Proof.
  intros Hev Hp. destruct ev as [value key| |other]; cbn [Session.step].
  - unfold Session.keypress.
    destruct (FluentFinderUI.handleQueryChange_begin value key (Session.ui s))
      as [[query|] u|e u]; cbn; try assumption.
    now apply pending_app.
  - unfold Session.screenKey.
    destruct (FluentFinderUI.bindKeys_callback (Session.ui s)); assumption.
  - assert (Hne : other <> request) by congruence.
    unfold Session.settle.
    destruct (Session.pending other (Session.inflight s)) as [[res|e]|];
      try assumption.
    + destruct (FluentFinderUI.handleQueryChange_resume res (Session.ui s));
        cbn; now rewrite pending_forget.
    + cbn. now rewrite pending_forget.
Qed.

Lemma run_keeps_pending (evs : list Session.Event) :
  forall (s : Session.t C W) (request : nat)
         (p : Promise (list SearchResult.t)),
    ~ In (Session.Settle request) evs ->
    Session.pending request (Session.inflight s) = Some p ->
    Session.pending request (Session.inflight (Session.run evs s)) = Some p.
Proof.
  induction evs as [|ev evs IH]; intros s request p Hnot Hp; [exact Hp|].
  cbn [Session.run fold_left]. apply IH.
  - intros Hin. apply Hnot. now right.
  - apply step_keeps_pending; [|exact Hp].
    intros ->. apply Hnot. now left.
Qed.

(** C1 (amended): the console keeps no sequence number and admits every
    response.  Whatever happened before (keypresses, other responses, in any
    order), when the response of a request in flight arrives it replaces the
    displayed list: after the render the list shown is that response, sorted
    by rank, with one title per item.  What is displayed is therefore the
    response that completed last, which is the one with the greatest number
    only when no later request completed before it. *)
Theorem last_settled_response_is_displayed (s : Session.t C W)
  (evs : list Session.Event) (request : nat) (res : list SearchResult.t) :
  Session.pending request (Session.inflight s) = Some (Resolved res) ->
  ~ In (Session.Settle request) evs ->
  let s' := Session.run (evs ++ [Session.Settle request]) s in
  FluentFinderUI.currentResult (Session.ui s')
  = map FluentFinderUI.toListItem (Array_sort FluentFinderUI.byRank res) /\
  items (FluentFinderUI.list_ (Session.ui s'))
  = map FluentFinderUI.convertListItemToListTitle
      (FluentFinderUI.currentResult (Session.ui s')) /\
  FluentFinderUI.io (Session.ui s')
  = (FluentFinderUI.io (Session.ui (Session.run evs s))
       ++ [ScreenRender; ScreenRender])%list.
Proof.
  intros Hp Hnot s'. subst s'. unfold Session.run. rewrite fold_left_app.
  fold (Session.run evs s). cbn [fold_left Session.step].
  pose proof (run_keeps_pending evs s request _ Hnot Hp) as Hp'.
  unfold Session.settle. rewrite Hp'.
  destruct (resume_returns res (Session.ui (Session.run evs s)))
    as (this' & Hrun & _ & _ & Hcur & Hlist & Hio).
  rewrite Hrun. cbn. split; [exact Hcur|]. split; [|exact Hio].
  rewrite Hlist, Hcur. apply updateList_list.
Qed.

End Admission.

(** C1, as stated, fails: ["f"] and ["fo"] are typed, the search for ["fo"]
    (the second request) is answered first and shown, then the answer to
    ["f"] (the first request) arrives and replaces it, although the later
    request has already completed. *)
Lemma stale_response_overwrites :
  Session.inflight
    (Session.run
       [Session.Keypress "" (plainKey "f"); Session.Keypress "f" (plainKey "o")]
       sampleSession)
  = [(0%nat, search sampleCore (FluentFinderUI.searchProps "f"));
     (1%nat, search sampleCore (FluentFinderUI.searchProps "fo"))] /\
  search sampleCore (FluentFinderUI.searchProps "fo")
  = Resolved [toSearchResult true chunkB 0] /\
  FluentFinderUI.currentResult
    (Session.ui
       (Session.run
          [Session.Keypress "" (plainKey "f");
           Session.Keypress "f" (plainKey "o"); Session.Settle 1]
          sampleSession))
  = [FluentFinderUI.toListItem (toSearchResult true chunkB 0)] /\
  FluentFinderUI.currentResult
    (Session.ui
       (Session.run
          [Session.Keypress "" (plainKey "f");
           Session.Keypress "f" (plainKey "o"); Session.Settle 1;
           Session.Settle 0] sampleSession))
  = [FluentFinderUI.toListItem (toSearchResult true chunkA 0);
     FluentFinderUI.toListItem (toSearchResult true chunkB 1)] /\
  FluentFinderUI.currentResult
    (Session.ui
       (Session.run
          [Session.Keypress "" (plainKey "f");
           Session.Keypress "f" (plainKey "o"); Session.Settle 1;
           Session.Settle 0] sampleSession))
  <> [FluentFinderUI.toListItem (toSearchResult true chunkB 0)].
Proof.
  split; [vm_compute; reflexivity|]. split; [vm_compute; reflexivity|].
  split; [vm_compute; reflexivity|]. split; [vm_compute; reflexivity|].
  vm_compute. discriminate.
Qed.

Lemma last_settled_response_is_displayed_witness :
  FluentFinderUI.currentResult
    (Session.ui
       (Session.run ([Session.Settle 1] ++ [Session.Settle 0])
          (Session.run
             [Session.Keypress "" (plainKey "f");
              Session.Keypress "f" (plainKey "o")] sampleSession)))
  = map FluentFinderUI.toListItem
      (Array_sort FluentFinderUI.byRank
         [toSearchResult true chunkA 0; toSearchResult true chunkB 1]).
Proof.
  assert (Hpending :
            Session.pending 0
              (Session.inflight
                 (Session.run
                    [Session.Keypress "" (plainKey "f");
                     Session.Keypress "f" (plainKey "o")] sampleSession))
            = Some (Resolved [toSearchResult true chunkA 0;
                              toSearchResult true chunkB 1]))
    by (vm_compute; reflexivity).
  assert (Hnot : ~ In (@Session.Settle 0) [Session.Settle 1]).
  { intros [Heq|[]]. discriminate. }
  apply (last_settled_response_is_displayed _ [Session.Settle 1] 0%nat _
           Hpending Hnot).
Defined.

(** * Further properties of the sources *)

(** ** Fuzzy matching *)

Lemma string_drop_get (s : string) :
  forall n,
    (n < String.length s)%nat ->
    exists c,
      String.get n s = Some c /\
      string_drop n s = String c (string_drop (S n) s).
Proof.
  induction s as [|c t IH]; intros n Hn; simpl in Hn; [lia|].
  destruct n as [|n]; simpl.
  - exists c. split; [reflexivity|]. now destruct t.
  - apply IH. lia.
Qed.

Lemma string_drop_all (s : string) :
  forall n, (String.length s <= n)%nat -> string_drop n s = "".
Proof.
  induction s as [|c t IH]; intros [|n] Hn; simpl in *;
    try reflexivity; try lia.
  apply IH. lia.
Qed.

Lemma Subsequence_tail (c : ascii) (q item : string) :
  Subsequence (String c q) item -> Subsequence q item.
Proof.
  intros Hsub. remember (String c q) as cq eqn:Hcq.
  induction Hsub as [item|c' q' item Hsub IH|c' q' item Hsub IH].
  - discriminate.
  - injection Hcq as -> ->. now apply Subsequence_skip.
  - apply Subsequence_skip. now apply IH.
Qed.

Lemma Subsequence_empty_item (q : string) : Subsequence q "" -> q = "".
Proof. intros Hsub. now inversion Hsub. Qed.

Lemma fuzzyMatch_loop_spec (lowerQuery : string) (rest : string) :
  forall queryIndex,
    (queryIndex < String.length lowerQuery)%nat ->
    fuzzyMatch_loop lowerQuery queryIndex rest = true
    <-> Subsequence (string_drop queryIndex lowerQuery) rest.
Proof.
  induction rest as [|ch rest IH]; intros queryIndex Hlt.
  - destruct (string_drop_get lowerQuery queryIndex Hlt) as (c & _ & Hdrop).
    simpl. split; [discriminate|].
    intros Hsub. apply Subsequence_empty_item in Hsub. congruence.
  - destruct (string_drop_get lowerQuery queryIndex Hlt) as (c & Hget & Hdrop).
    cbn [fuzzyMatch_loop]. rewrite Hget, Hdrop.
    destruct (Ascii.eqb ch c) eqn:Hch.
    + apply Ascii.eqb_eq in Hch. subst c.
      destruct (S queryIndex =? String.length lowerQuery)%nat eqn:Hend.
      * apply Nat.eqb_eq in Hend.
        rewrite (string_drop_all lowerQuery (S queryIndex)) by lia.
        split; [intros _|reflexivity].
        apply Subsequence_take, Subsequence_nil.
      * apply Nat.eqb_neq in Hend. rewrite IH by lia. split.
        -- apply Subsequence_take.
        -- intros Hsub. inversion Hsub; subst; [assumption|].
           now apply Subsequence_tail with (c := ch).
    + assert (Hend : (queryIndex =? String.length lowerQuery)%nat = false)
        by (apply Nat.eqb_neq; lia).
      rewrite Hend, IH by exact Hlt. rewrite Hdrop. split.
      * apply Subsequence_skip.
      * intros Hsub. inversion Hsub; subst; [|assumption].
        rewrite Ascii.eqb_refl in Hch. discriminate.
Qed.

#[export] Instance latin1LowerCase_laws : JSLowerCaseLaws latin1LowerCase.
Proof.
  split. intros [|c t]; split; try reflexivity; discriminate.
Qed.

Lemma Subsequence_length (q item : string) :
  Subsequence q item -> (String.length q <= String.length item)%nat.
Proof. intros Hsub. induction Hsub; simpl; lia. Qed.

Lemma Subsequence_app_l (a b item : string) :
  Subsequence (a ++ b) item -> Subsequence a item.
Proof.
  intros Hsub. remember (a ++ b) as q eqn:Hq. revert a b Hq.
  induction Hsub as [item|c q item Hsub IH|c q item Hsub IH]; intros a b Hq.
  - destruct a; [apply Subsequence_nil|discriminate].
  - destruct a as [|c' a]; [apply Subsequence_nil|].
    simpl in Hq. injection Hq as -> ->.
    apply Subsequence_take. now apply (IH a b).
  - apply Subsequence_skip. now apply (IH a b).
Qed.

Lemma Subsequence_refl (s : string) : Subsequence s s.
Proof.
  induction s; [apply Subsequence_nil|now apply Subsequence_take].
Qed.

Lemma Subsequence_app_item_r (q item after : string) :
  Subsequence q item -> Subsequence q (item ++ after).
Proof.
  intros Hsub. induction Hsub; simpl.
  - apply Subsequence_nil.
  - now apply Subsequence_take.
  - now apply Subsequence_skip.
Qed.

Lemma Subsequence_app_item_l (q before item : string) :
  Subsequence q item -> Subsequence q (before ++ item).
Proof.
  intros Hsub. induction before; simpl; [assumption|].
  now apply Subsequence_skip.
Qed.

Lemma filter_filter_implied {A : Type} (p1 p2 : A -> bool) (l : list A) :
  (forall x, p2 x = true -> p1 x = true) ->
  filter p2 (filter p1 l) = filter p2 l.
Proof.
  intros Himp. induction l as [|x l IH]; [reflexivity|]. simpl.
  destruct (p1 x) eqn:H1; simpl.
  - now rewrite IH.
  - destruct (p2 x) eqn:H2; [|exact IH].
    apply Himp in H2. congruence.
Qed.

Lemma filter_all {A : Type} (p : A -> bool) (l : list A) :
  (forall x, p x = true) -> filter p l = l.
Proof.
  intros Hall. induction l as [|x l IH]; [reflexivity|].
  simpl. now rewrite Hall, IH.
Qed.

Section FuzzyMatching.
Context {lower : JSLowerCase} {laws : JSLowerCaseLaws lower}.

Lemma fuzzyMatch_iff (query item : string) :
  fuzzyMatch query item = true
  <-> Subsequence (toLowerCase query) (toLowerCase item).
Proof.
  unfold fuzzyMatch. destruct query as [|c q].
  - cbn [String.eqb].
    rewrite (proj2 (toLowerCase_empty "") eq_refl).
    split; [intros _; apply Subsequence_nil|reflexivity].
  - cbn [String.eqb]. apply fuzzyMatch_loop_spec.
    destruct (toLowerCase (String c q)) as [|c' q'] eqn:Hlow.
    + apply (proj1 (toLowerCase_empty _)) in Hlow. discriminate Hlow.
    + simpl. lia.
Qed.

(** X1: [fuzzyMatch] holds exactly when the lower-cased query can be obtained
    from the lower-cased item by deleting characters, whatever the characters
    are; in particular the empty query matches every item, and a query whose
    lower-cased form is longer than that of the item never matches. *)
Theorem fuzzyMatch_subsequence (query item : string) :
  (fuzzyMatch query item = true
   <-> Subsequence (toLowerCase query) (toLowerCase item)) /\
  fuzzyMatch "" item = true /\
  (fuzzyMatch query item = true ->
   (String.length (toLowerCase query) <= String.length (toLowerCase item))%nat).
Proof.
  split; [apply fuzzyMatch_iff|]. split; [reflexivity|].
  intros Hmatch. apply fuzzyMatch_iff in Hmatch.
  now apply Subsequence_length.
Qed.

(** X2: a longer query never matches more.  When the lower-cased form of a
    query begins with the lower-cased form of another one (as it does when
    text is typed at the end of a query and lower-casing works character by
    character), every item it matches is matched by the other one, and an
    item that the other one rejects stays rejected. *)
Theorem fuzzyMatch_extension (query longer rest item : string) :
  toLowerCase longer = toLowerCase query ++ rest ->
  (fuzzyMatch longer item = true -> fuzzyMatch query item = true) /\
  (fuzzyMatch query item = false -> fuzzyMatch longer item = false).
Proof.
  intros Hlonger.
  assert (Hless : fuzzyMatch longer item = true ->
                  fuzzyMatch query item = true).
  { intros Hmatch. apply fuzzyMatch_iff in Hmatch. apply fuzzyMatch_iff.
    rewrite Hlonger in Hmatch. now apply Subsequence_app_l in Hmatch. }
  split; [exact Hless|].
  intros Hno. destruct (fuzzyMatch longer item); [|reflexivity].
  rewrite Hless in Hno by reflexivity. discriminate Hno.
Qed.

(** X3: text around a match does not break it.  An item whose lower-cased
    form contains the lower-cased query matches it, and an item that matches
    still matches inside a wider item, one whose lower-cased form contains
    the lower-cased form of the first. *)
Theorem fuzzyMatch_surrounded (query item : string) :
  (forall before after,
      toLowerCase item = before ++ toLowerCase query ++ after ->
      fuzzyMatch query item = true) /\
  (forall wider before after,
      toLowerCase wider = before ++ toLowerCase item ++ after ->
      fuzzyMatch query item = true ->
      fuzzyMatch query wider = true).
Proof.
  split.
  - intros before after Hitem. apply fuzzyMatch_iff. rewrite Hitem.
    apply Subsequence_app_item_l, Subsequence_app_item_r, Subsequence_refl.
  - intros wider before after Hwider Hmatch.
    apply fuzzyMatch_iff in Hmatch. apply fuzzyMatch_iff. rewrite Hwider.
    now apply Subsequence_app_item_l, Subsequence_app_item_r.
Qed.

(** X4: the list of the first finder is always the items matching the query,
    in their original order (the special case for the empty query shows all
    of them, as filtering would); an item is listed exactly when it is one of
    the items and the lower-cased query is a subsequence of its lower-cased
    form; and the list for a query whose lower-cased form begins with that of
    the present query is the present list filtered once more, so that typing
    on only narrows it. *)
Theorem filteredItems_narrows (allItems : list string) (query : string) :
  filteredItems allItems query = filter (fuzzyMatch query) allItems /\
  filteredItems allItems "" = allItems /\
  (forall item,
      In item (filteredItems allItems query)
      <-> In item allItems
          /\ Subsequence (toLowerCase query) (toLowerCase item)) /\
  (forall longer rest,
      toLowerCase longer = toLowerCase query ++ rest ->
      filteredItems allItems longer
      = filter (fuzzyMatch longer) (filteredItems allItems query)).
Proof.
  assert (Hfilter : forall q,
             filteredItems allItems q = filter (fuzzyMatch q) allItems).
  { intros q. unfold filteredItems. destruct (String.eqb q "") eqn:Hq.
    - apply String.eqb_eq in Hq. subst q. symmetry. now apply filter_all.
    - reflexivity. }
  split; [apply Hfilter|]. split; [reflexivity|]. split.
  - intros item. rewrite Hfilter, filter_In. now rewrite fuzzyMatch_iff.
  - intros longer rest Hlonger. rewrite !Hfilter. symmetry.
    apply filter_filter_implied. intros item Hmatch.
    apply fuzzyMatch_iff in Hmatch. apply fuzzyMatch_iff.
    rewrite Hlonger in Hmatch. now apply Subsequence_app_l in Hmatch.
Qed.

End FuzzyMatching.

Lemma fuzzyMatch_subsequence_witness :
  fuzzyMatch "BnN" "Banana" = true /\
  (String.length (toLowerCase "BnN") <= String.length (toLowerCase "Banana"))%nat.
Proof.
  destruct (fuzzyMatch_subsequence (laws := latin1LowerCase_laws)
              "BnN" "Banana") as (Hiff & _ & Hlen).
  assert (Hmatch : fuzzyMatch "BnN" "Banana" = true).
  { apply Hiff. cbn. repeat constructor. }
  split; [exact Hmatch|exact (Hlen Hmatch)].
Defined.

Lemma fuzzyMatch_extension_witness : fuzzyMatch "Ba" "Banana" = true.
Proof.
  assert (Hlonger : toLowerCase "BaNN" = toLowerCase "Ba" ++ "nn")
    by reflexivity.
  destruct (fuzzyMatch_extension (laws := latin1LowerCase_laws)
              "Ba" "BaNN" "nn" "Banana" Hlonger) as [Hless _].
  apply Hless. vm_compute. reflexivity.
Defined.

Lemma fuzzyMatch_surrounded_witness :
  fuzzyMatch "Cor" "src/DirCore.ts" = true.
Proof.
  destruct (fuzzyMatch_surrounded (laws := latin1LowerCase_laws)
              "Cor" "src/DirCore.ts") as [Hinside _].
  apply (Hinside "src/dir" "e.ts"). vm_compute. reflexivity.
Defined.

Lemma filteredItems_narrows_witness :
  filteredItems ["Banana"; "apple"; "Bean"] "BaN"
  = filter (fuzzyMatch "BaN") (filteredItems ["Banana"; "apple"; "Bean"] "b").
Proof.
  destruct (filteredItems_narrows (laws := latin1LowerCase_laws)
              ["Banana"; "apple"; "Bean"] "b") as (_ & _ & _ & Hnarrow).
  apply (Hnarrow "BaN" "an"). vm_compute. reflexivity.
Defined.

(** ** Sorting an arbitrary response *)

Lemma sort_insert_Permutation {A : Type} (cmp : A -> A -> Z) (x : A)
  (l : list A) :
  Permutation (sort_insert cmp x l) (x :: l).
Proof.
  induction l as [|y t IH]; simpl; [apply Permutation_refl|].
  destruct (cmp x y <=? 0)%Z; [apply Permutation_refl|].
  rewrite IH. apply perm_swap.
Qed.

Lemma Array_sort_Permutation {A : Type} (cmp : A -> A -> Z) (l : list A) :
  Permutation (Array_sort cmp l) l.
Proof.
  induction l as [|x t IH]; [apply Permutation_refl|].
  unfold Array_sort in *. simpl. rewrite sort_insert_Permutation.
  now apply perm_skip.
Qed.

Lemma sort_insert_byRank_sorted (x : SearchResult.t)
  (l : list SearchResult.t) :
  StronglySorted
    (fun a b => (SearchResult.rank a <= SearchResult.rank b)%Z) l ->
  StronglySorted
    (fun a b => (SearchResult.rank a <= SearchResult.rank b)%Z)
    (sort_insert FluentFinderUI.byRank x l).
Proof.
  intros Hsorted. induction Hsorted as [|y t Ht IH Hy]; simpl.
  - repeat constructor.
  - unfold FluentFinderUI.byRank at 1.
    destruct (SearchResult.rank x - SearchResult.rank y <=? 0)%Z eqn:Hcmp.
    + apply Z.leb_le in Hcmp. constructor; [now constructor|].
      constructor; [lia|].
      eapply Forall_impl; [|exact Hy]. simpl. intros r Hr. lia.
    + apply Z.leb_gt in Hcmp. constructor; [exact IH|].
      apply (Permutation_Forall
               (Permutation_sym
                  (sort_insert_Permutation FluentFinderUI.byRank x t))).
      constructor; [lia|exact Hy].
Qed.

Lemma sort_insert_byRank_filter (z : Z) (x : SearchResult.t)
  (l : list SearchResult.t) :
  filter (fun r => (SearchResult.rank r =? z)%Z)
    (sort_insert FluentFinderUI.byRank x l)
  = filter (fun r => (SearchResult.rank r =? z)%Z) (x :: l).
Proof.
  induction l as [|y t IH]; [reflexivity|].
  cbn [sort_insert]. unfold FluentFinderUI.byRank at 1.
  destruct (SearchResult.rank x - SearchResult.rank y <=? 0)%Z eqn:Hcmp;
    [reflexivity|].
  apply Z.leb_gt in Hcmp. cbn [filter] in *. rewrite IH.
  destruct (SearchResult.rank y =? z)%Z eqn:Hy;
    destruct (SearchResult.rank x =? z)%Z eqn:Hx; try reflexivity.
  apply Z.eqb_eq in Hy, Hx. lia.
Qed.

Lemma Array_sort_byRank_sorted (res : list SearchResult.t) :
  StronglySorted
    (fun a b => (SearchResult.rank a <= SearchResult.rank b)%Z)
    (Array_sort FluentFinderUI.byRank res).
Proof.
  induction res as [|x t IH]; [constructor|].
  unfold Array_sort in *. simpl. now apply sort_insert_byRank_sorted.
Qed.

Lemma Array_sort_byRank_filter (z : Z) (res : list SearchResult.t) :
  filter (fun r => (SearchResult.rank r =? z)%Z)
    (Array_sort FluentFinderUI.byRank res)
  = filter (fun r => (SearchResult.rank r =? z)%Z) res.
Proof.
  induction res as [|x t IH]; [reflexivity|].
  unfold Array_sort in *. cbn [fold_right].
  rewrite sort_insert_byRank_filter. cbn [filter]. now rewrite IH.
Qed.

Section AnyResponse.
Context {C W : Type} `{IFlfCore C} `{ListElement W}.

(** X5: whatever list a core answers with, the console displays all of its
    results and nothing else, ordered by ascending rank, and results of equal
    rank stay in the order the core gave them. *)
Theorem resume_displays_sorted_permutation (res : list SearchResult.t)
  (this : FluentFinderUI.t C W) :
  exists this' sorted,
    FluentFinderUI.handleQueryChange_resume res this = Returned tt this' /\
    FluentFinderUI.currentResult this'
    = map FluentFinderUI.toListItem sorted /\
    Permutation sorted res /\
    StronglySorted
      (fun a b => (SearchResult.rank a <= SearchResult.rank b)%Z) sorted /\
    (forall z,
        filter (fun r => (SearchResult.rank r =? z)%Z) sorted
        = filter (fun r => (SearchResult.rank r =? z)%Z) res).
Proof.
  destruct (resume_returns res this) as (this' & Hrun & _ & _ & Hcur & _).
  exists this', (Array_sort FluentFinderUI.byRank res).
  split; [exact Hrun|]. split; [exact Hcur|].
  split; [apply Array_sort_Permutation|].
  split; [apply Array_sort_byRank_sorted|].
  intros z. apply Array_sort_byRank_filter.
Qed.

End AnyResponse.

(** ** Output on one line *)

Lemma has_newline_JSON_escape_char (c : ascii) :
  has_newline (JSON_escape_char c) = false.
Proof.
  destruct c as [[] [] [] [] [] [] [] []]; reflexivity.
Qed.

Lemma has_newline_JSON_escape (s : string) :
  has_newline (JSON_escape s) = false.
Proof.
  induction s as [|c t IH]; [reflexivity|].
  simpl. now rewrite has_newline_app, has_newline_JSON_escape_char, IH.
Qed.

Lemma has_newline_JSON_string (s : string) :
  has_newline (JSON_string s) = false.
Proof.
  unfold JSON_string. now rewrite !has_newline_app, has_newline_JSON_escape.
Qed.

(** X6: with [cmd] and [emacs] the output is always on one line: the JSON
    text of an item has no line break, whatever line breaks its content, its
    path or its other fields contain. *)
Theorem formatResult_cmd_one_line (result : ListItem.t) :
  has_newline (FlfDirCore.formatResult result cmd) = false /\
  has_newline (FlfDirCore.formatResult result emacs) = false /\
  has_newline (FlfBufferCore.formatResult result cmd) = false /\
  has_newline (FlfBufferCore.formatResult result emacs) = false.
Proof.
  assert (Hjson : has_newline (JSON_stringify result) = false).
  { unfold JSON_stringify, JSON_CursorInfo, JSON_Point.
    rewrite !has_newline_app, !has_newline_JSON_string, !has_newline_Number.
    reflexivity. }
  repeat split; exact Hjson.
Qed.

(** ** From a response to the printed command *)

Section Choosing.
Context {C W : Type} `{IFlfCore C} `{ListElement W}.

Lemma step_started (s : Session.t C W) (ev : Session.Event) :
  Session.started (Session.step s ev)
  = (Session.started s + (if starts_search ev then 1 else 0))%nat.
Proof.
  destruct ev as [value key| |request]; cbn [Session.step starts_search].
  - unfold Session.keypress. destruct (is_navigation key) eqn:Hnav; cbn [negb].
    + rewrite (begin_navigation value key (Session.ui s) Hnav). cbv zeta.
      destruct (Array_get _ _); cbn; lia.
    + destruct (begin_other value key (Session.ui s) Hnav)
        as (query & this' & Hbegin & _).
      rewrite Hbegin. cbn. lia.
  - unfold Session.screenKey.
    destruct (FluentFinderUI.bindKeys_callback (Session.ui s)); cbn; lia.
  - unfold Session.settle.
    destruct (Session.pending request (Session.inflight s)) as [[res|e]|];
      cbn; try lia.
    destruct (FluentFinderUI.handleQueryChange_resume res (Session.ui s));
      cbn; lia.
Qed.

(** X7: the number of searches started during a session is the number of
    keypresses other than [up] and [down]: navigation, the quit key and
    arriving responses start none, and every other keypress, [enter] and
    [C-c] included, starts exactly one. *)
Theorem searches_started (evs : list Session.Event) (s : Session.t C W) :
  Session.started (Session.run evs s)
  = (Session.started s + List.length (filter starts_search evs))%nat.
Proof.
  revert s. induction evs as [|ev evs IH]; intros s; [cbn; lia|].
  cbn [Session.run fold_left filter]. unfold Session.run in IH.
  rewrite IH, step_started.
  destruct (starts_search ev); cbn [List.length]; lia.
Qed.

Context `{!ListElementLaws W}.

(** One press of a navigation key on a non-empty list moves the cursor of
    the list widget and leaves the rest of the session alone. *)
Lemma keypress_navigation_frame (s : Session.t C W) (value : string)
  (key : KeyInput) :
  is_navigation key = true ->
  FluentFinderUI.currentResult (Session.ui s) <> [] ->
  List.length (items (FluentFinderUI.list_ (Session.ui s)))
  = List.length (FluentFinderUI.currentResult (Session.ui s)) ->
  let s' := Session.keypress value key s in
  FluentFinderUI.list_ (Session.ui s')
  = navigated key (FluentFinderUI.list_ (Session.ui s)) /\
  FluentFinderUI.currentResult (Session.ui s')
  = FluentFinderUI.currentResult (Session.ui s) /\
  FluentFinderUI.options (Session.ui s')
  = FluentFinderUI.options (Session.ui s) /\
  Session.stdout (FluentFinderUI.io (Session.ui s'))
  = Session.stdout (FluentFinderUI.io (Session.ui s)).
Proof.
  intros Hnav Hne Hlen s'. subst s'.
  assert (Hrows : items (FluentFinderUI.list_ (Session.ui s)) <> []).
  { intros Hnil. rewrite Hnil in Hlen.
    destruct (FluentFinderUI.currentResult (Session.ui s));
      [congruence|discriminate]. }
  pose proof (navigated_in_range key _ Hnav Hrows) as Hrange.
  rewrite Hlen in Hrange.
  destruct (Array_get_in_range _ _ Hrange) as [item Hitem].
  pose proof (begin_navigation value key (Session.ui s) Hnav) as Hbegin.
  cbv zeta in Hbegin. rewrite Hitem in Hbegin.
  unfold Session.keypress. rewrite Hbegin. cbn.
  repeat split. rewrite stdout_app. cbn. now rewrite app_nil_r.
Qed.

Lemma run_downs (n : nat) :
  forall (s : Session.t C W) (value : string) (key : KeyInput),
    key_name key = Some "down" ->
    List.length (items (FluentFinderUI.list_ (Session.ui s)))
    = List.length (FluentFinderUI.currentResult (Session.ui s)) ->
    (0 <= selected (FluentFinderUI.list_ (Session.ui s))
     < Z.of_nat (List.length (FluentFinderUI.currentResult (Session.ui s))))%Z ->
    let this' :=
      Session.ui (Session.run (repeat (Session.Keypress value key) n) s) in
    selected (FluentFinderUI.list_ this')
    = Z.min (selected (FluentFinderUI.list_ (Session.ui s)) + Z.of_nat n)
        (Z.of_nat (List.length (FluentFinderUI.currentResult (Session.ui s))) - 1) /\
    List.length (items (FluentFinderUI.list_ this'))
    = List.length (FluentFinderUI.currentResult (Session.ui s)) /\
    FluentFinderUI.currentResult this'
    = FluentFinderUI.currentResult (Session.ui s) /\
    FluentFinderUI.options this' = FluentFinderUI.options (Session.ui s) /\
    Session.stdout (FluentFinderUI.io this')
    = Session.stdout (FluentFinderUI.io (Session.ui s)).
Proof.
  induction n as [|n IH]; intros s value key Hkey Hlen Hsel.
  - cbn [repeat Session.run fold_left].
    split; [lia|]. repeat split; assumption.
  - assert (Hnav : is_navigation key = true)
      by (unfold is_navigation; now rewrite Hkey).
    assert (Hne : FluentFinderUI.currentResult (Session.ui s) <> []).
    { intros Hnil. rewrite Hnil in Hsel. simpl in Hsel. lia. }
    destruct (keypress_navigation_frame s value key Hnav Hne Hlen)
      as (Hlist & Hcur & Hopt & Hout).
    assert (Hrows : items (FluentFinderUI.list_ (Session.ui s)) <> []).
    { intros Hnil. rewrite Hnil in Hlen.
      destruct (FluentFinderUI.currentResult (Session.ui s));
        [congruence|discriminate]. }
    assert (Hmove : selected (FluentFinderUI.list_
                                (Session.ui (Session.keypress value key s)))
                    = Z.min (selected (FluentFinderUI.list_ (Session.ui s)) + 1)
                        (Z.of_nat (List.length (FluentFinderUI.currentResult (Session.ui s))) - 1)).
    { rewrite Hlist. unfold navigated. rewrite Hkey.
      cbn [String.eqb Ascii.eqb Bool.eqb].
      rewrite selected_down by exact Hrows. rewrite Hlen. unfold clamp. lia. }
    cbn [repeat Session.run fold_left Session.step].
    specialize (IH (Session.keypress value key s) value key Hkey).
    cbv zeta in IH. rewrite Hcur in IH.
    destruct IH as (Hsel' & Hlen' & Hcur' & Hopt' & Hout').
    + rewrite Hlist, navigated_items. exact Hlen.
    + rewrite Hmove. lia.
    + unfold Session.run in *. split; [rewrite Hsel', Hmove; lia|].
      split; [exact Hlen'|]. split; [exact Hcur'|].
      split; [now rewrite Hopt'|]. now rewrite Hout'.
Qed.

Lemma run_ups (n : nat) :
  forall (s : Session.t C W) (value : string) (key : KeyInput),
    key_name key = Some "up" ->
    List.length (items (FluentFinderUI.list_ (Session.ui s)))
    = List.length (FluentFinderUI.currentResult (Session.ui s)) ->
    (0 <= selected (FluentFinderUI.list_ (Session.ui s))
     < Z.of_nat (List.length (FluentFinderUI.currentResult (Session.ui s))))%Z ->
    let this' :=
      Session.ui (Session.run (repeat (Session.Keypress value key) n) s) in
    selected (FluentFinderUI.list_ this')
    = Z.max (selected (FluentFinderUI.list_ (Session.ui s)) - Z.of_nat n) 0 /\
    List.length (items (FluentFinderUI.list_ this'))
    = List.length (FluentFinderUI.currentResult (Session.ui s)) /\
    FluentFinderUI.currentResult this'
    = FluentFinderUI.currentResult (Session.ui s) /\
    FluentFinderUI.options this' = FluentFinderUI.options (Session.ui s) /\
    Session.stdout (FluentFinderUI.io this')
    = Session.stdout (FluentFinderUI.io (Session.ui s)).
Proof.
  induction n as [|n IH]; intros s value key Hkey Hlen Hsel.
  - cbn [repeat Session.run fold_left].
    split; [lia|]. repeat split; assumption.
  - assert (Hnav : is_navigation key = true)
      by (unfold is_navigation; now rewrite Hkey).
    assert (Hne : FluentFinderUI.currentResult (Session.ui s) <> []).
    { intros Hnil. rewrite Hnil in Hsel. simpl in Hsel. lia. }
    destruct (keypress_navigation_frame s value key Hnav Hne Hlen)
      as (Hlist & Hcur & Hopt & Hout).
    assert (Hrows : items (FluentFinderUI.list_ (Session.ui s)) <> []).
    { intros Hnil. rewrite Hnil in Hlen.
      destruct (FluentFinderUI.currentResult (Session.ui s));
        [congruence|discriminate]. }
    assert (Hmove : selected (FluentFinderUI.list_
                                (Session.ui (Session.keypress value key s)))
                    = Z.max (selected (FluentFinderUI.list_ (Session.ui s)) - 1) 0).
    { rewrite Hlist. unfold navigated. rewrite Hkey.
      cbn [String.eqb Ascii.eqb Bool.eqb].
      rewrite selected_up by exact Hrows. rewrite Hlen. unfold clamp. lia. }
    cbn [repeat Session.run fold_left Session.step].
    specialize (IH (Session.keypress value key s) value key Hkey).
    cbv zeta in IH. rewrite Hcur in IH.
    destruct IH as (Hsel' & Hlen' & Hcur' & Hopt' & Hout').
    + rewrite Hlist, navigated_items. exact Hlen.
    + rewrite Hmove. lia.
    + unfold Session.run in *. split; [rewrite Hsel', Hmove; lia|].
      split; [exact Hlen'|]. split; [exact Hcur'|].
      split; [now rewrite Hopt'|]. now rewrite Hout'.
Qed.

End Choosing.

Lemma Array_at_of_nat {A : Type} (l : list A) (i : nat) :
  Array_at l (Z.of_nat i) = nth_error l i.
Proof.
  unfold Array_at, Array_get.
  destruct (Z.of_nat i <? 0)%Z eqn:E; [apply Z.ltb_lt in E; lia|].
  now rewrite Nat2Z.id.
Qed.

Section EndToEnd.
Context {C W : Type} `{IFlfCore C} `{ListElement W} `{!ListElementLaws W}.

(** X8: from a response to the printed command.  When a non-empty response
    arrives, is followed by any number of [down] presses and then any number
    of [up] presses, and [enter] is pressed, the cursor is at position
    [min(downs, n-1) - ups] (not below 0) of the response sorted by rank, and
    the one line written to standard output is the command for the item at
    that position. *)
Theorem chosen_item_is_printed (s : Session.t C W) (request : nat)
  (res : list SearchResult.t) (downs ups : nat) (value : string)
  (kd ku ke : KeyInput) :
  key_name kd = Some "down" ->
  key_name ku = Some "up" ->
  key_name ke = Some "enter" ->
  Session.pending request (Session.inflight s) = Some (Resolved res) ->
  res <> [] ->
  let shown := map FluentFinderUI.toListItem (Array_sort FluentFinderUI.byRank res) in
  let index := (Nat.min downs (List.length res - 1) - ups)%nat in
  let s1 :=
    Session.run (repeat (Session.Keypress value ku) ups)
      (Session.run (repeat (Session.Keypress value kd) downs)
         (Session.settle request s)) in
  selected (FluentFinderUI.list_ (Session.ui s1)) = Z.of_nat index /\
  exists item,
    nth_error shown index = Some item /\
    Session.stdout
      (FluentFinderUI.io (Session.ui (Session.keypress value ke s1)))
    = (Session.stdout (FluentFinderUI.io (Session.ui s))
         ++ [FlfDirCore.formatResult item
               (UIOptions.editor (FluentFinderUI.options (Session.ui s)))])%list.
Proof.
  intros Hkd Hku Hke Hp Hres shown index s1.
  assert (Hpos : (0 < List.length res)%nat)
    by (destruct res; [congruence|simpl; lia]).
  assert (Hlen : List.length shown = List.length res).
  { subst shown. rewrite length_map.
    apply Permutation_length, Array_sort_Permutation. }
  assert (Hshown : shown <> []).
  { intros Hnil. rewrite Hnil in Hlen. destruct res; [congruence|discriminate]. }
  destruct (resume_returns res (Session.ui s))
    as (this' & Hrun & _ & Hopt & Hcur & Hlist & Hio).
  fold shown in Hcur, Hlist.
  destruct (updateList_list shown (Session.ui s)) as [Htitles Hzero].
  cbv zeta in Htitles, Hzero. rewrite <- Hlist in Htitles, Hzero.
  specialize (Hzero Hshown).
  assert (Hsettle : Session.ui (Session.settle request s) = this').
  { unfold Session.settle. rewrite Hp, Hrun. reflexivity. }
  destruct (run_downs downs (Session.settle request s) value kd Hkd)
    as (Hsel1 & Hlen1 & Hcur1 & Hopt1 & Hout1).
  { rewrite Hsettle, Htitles, Hcur. now rewrite length_map. }
  { rewrite Hsettle, Hzero, Hcur, Hlen. lia. }
  cbv zeta in Hsel1, Hlen1, Hcur1, Hopt1, Hout1.
  rewrite Hsettle, ?Hzero, ?Hcur, ?Hlen in Hsel1, Hlen1, Hcur1.
  destruct (run_ups ups
              (Session.run (repeat (Session.Keypress value kd) downs)
                 (Session.settle request s)) value ku Hku)
    as (Hsel2 & Hlen2 & Hcur2 & Hopt2 & Hout2).
  { rewrite Hlen1, Hcur1. now rewrite Hlen. }
  { rewrite Hsel1, Hcur1, Hlen. lia. }
  cbv zeta in Hsel2, Hlen2, Hcur2, Hopt2, Hout2. fold s1 in Hsel2, Hcur2, Hopt2, Hout2.
  assert (Hindex : selected (FluentFinderUI.list_ (Session.ui s1))
                   = Z.of_nat index).
  { rewrite Hsel2, Hsel1. subst index. lia. }
  split; [exact Hindex|].
  assert (Hin : (index < List.length shown)%nat).
  { rewrite Hlen. subst index. lia. }
  destruct (nth_error shown index) as [item|] eqn:Hitem;
    [|apply nth_error_None in Hitem; lia].
  exists item. split; [reflexivity|].
  unfold Session.keypress.
  rewrite (begin_enter value ke (Session.ui s1) Hke).
  rewrite Hindex, Hcur2, Hcur1, Array_at_of_nat, Hitem. cbn.
  rewrite stdout_app, Hout2, Hout1, Hsettle, Hio, stdout_app. cbn.
  rewrite app_nil_r, Hopt2, Hopt1, Hsettle, Hopt. reflexivity.
Qed.

End EndToEnd.

Lemma chosen_item_is_printed_witness :
  Session.stdout
    (FluentFinderUI.io
       (Session.ui
          (Session.keypress "f" (plainKey "enter")
             (Session.run (repeat (Session.Keypress "f" (plainKey "up")) 1)
                (Session.run (repeat (Session.Keypress "f" (plainKey "down")) 5)
                   (Session.settle 0
                      (Session.run [Session.Keypress "" (plainKey "f")]
                         sampleSession)))))))
  = ["<cmd>tabf +5 src/a.ts<CR>"].
Proof.
  assert (Hp : Session.pending 0
                 (Session.inflight
                    (Session.run [Session.Keypress "" (plainKey "f")]
                       sampleSession))
               = Some (Resolved [toSearchResult true chunkA 0;
                                 toSearchResult true chunkB 1]))
    by (vm_compute; reflexivity).
  assert (Hres : [toSearchResult true chunkA 0; toSearchResult true chunkB 1]
                 <> []) by discriminate.
  destruct (chosen_item_is_printed
              (Session.run [Session.Keypress "" (plainKey "f")] sampleSession)
              0%nat _ 5%nat 1%nat "f"
              (plainKey "down") (plainKey "up") (plainKey "enter")
              eq_refl eq_refl eq_refl Hp Hres)
    as (_ & item & Hitem & Hout).
  rewrite Hout. vm_compute in Hitem. injection Hitem as <-.
  vm_compute. reflexivity.
Defined.

(** ** Editing the query *)

Lemma trimEnd_head (s : string) :
  trimEnd s = ""
  \/ exists a t t', s = String a t /\ trimEnd s = String a t'.
Proof.
  destruct s as [|a t]; [now left|]. simpl.
  destruct (trimEnd t) as [|b t'].
  - destruct (is_space a); [now left|right; now exists a, t, ""].
  - right. now exists a, t, (String b t').
Qed.

Lemma trimStart_head (s : string) :
  trimStart s = ""
  \/ exists a t, trimStart s = String a t /\ is_space a = false.
Proof.
  induction s as [|a t IH]; [now left|]. simpl.
  destruct (is_space a) eqn:Ha; [exact IH|].
  right. now exists a, t.
Qed.

Lemma trim_head (s : string) :
  trim s = "" \/ exists a t, trim s = String a t /\ is_space a = false.
Proof.
  unfold trim.
  destruct (trimEnd_head (trimStart s)) as [Hnil|(a & t & t' & Hs & He)];
    [now left|].
  right. exists a, t'. split; [exact He|].
  destruct (trimStart_head s) as [Hempty|(b & u & Hb & Hspace)]; congruence.
Qed.

Lemma trimEnd_app_char (x : string) (c : ascii) :
  is_space c = false ->
  trimEnd (x ++ String c "") = x ++ String c "".
Proof.
  intros Hc. induction x as [|a x IH]; simpl.
  - now rewrite Hc.
  - rewrite IH. now destruct x.
Qed.

Lemma trimEnd_idempotent (s : string) : trimEnd (trimEnd s) = trimEnd s.
Proof.
  induction s as [|a t IH]; [reflexivity|]. simpl.
  destruct (trimEnd t) as [|b t'] eqn:Ht.
  - destruct (is_space a) eqn:Ha; [reflexivity|]. simpl. now rewrite Ha.
  - change (trimEnd (String a (String b t')))
      with (match trimEnd (String b t') with
            | EmptyString =>
                if is_space a then EmptyString else String a EmptyString
            | t'' => String a t''
            end).
    now rewrite IH.
Qed.

Lemma trimStart_nonspace (a : ascii) (t : string) :
  is_space a = false -> trimStart (String a t) = String a t.
Proof. intros Ha. simpl. now rewrite Ha. Qed.

Lemma dropLast_app_char (x : string) (c : ascii) :
  dropLast (x ++ String c "") = x.
Proof.
  induction x as [|a x IH]; [reflexivity|].
  simpl. rewrite IH. now destruct x.
Qed.

Lemma trim_app_char (value : string) (c : ascii) :
  is_space c = false ->
  trim (trim value ++ String c "") = trim value ++ String c "".
Proof.
  intros Hc. unfold trim at 1.
  destruct (trim_head value) as [Hnil|(a & t & Ha & Hspace)].
  - rewrite Hnil. cbn [append]. rewrite (trimStart_nonspace c "" Hc).
    cbn [trimEnd]. now rewrite Hc.
  - rewrite Ha. cbn [append]. rewrite (trimStart_nonspace a _ Hspace).
    change (String a (t ++ String c "")) with (String a t ++ String c "").
    now apply trimEnd_app_char.
Qed.

Section Editing.
Context {C W : Type} `{IFlfCore C} `{ListElement W}.

(** X9: editing the query.  The query searched is taken from the trimmed
    text of the input box, and trimming twice changes nothing.  Typing a
    character that is not white space searches for the trimmed text followed
    by that character; when the box then holds that text, [backspace]
    searches for the text as it was before the character; and [backspace] on
    an empty or blank box searches for the empty query.  None of these keys
    changes the console. *)
Theorem backspace_undoes_typing (value : string) (c : ascii)
  (sequence full : string) (backspace : KeyInput)
  (this : FluentFinderUI.t C W) :
  is_space c = false ->
  key_name backspace = Some "backspace" ->
  let typed := AsciiKey sequence false false false (String c "") full in
  trim (trim value) = trim value /\
  FluentFinderUI.handleQueryChange_begin value typed this
  = Returned (Some (trim value ++ String c "")) this /\
  FluentFinderUI.handleQueryChange_begin (trim value ++ String c "")
    backspace this
  = Returned (Some (trim value)) this /\
  (trim value = "" ->
   FluentFinderUI.handleQueryChange_begin value backspace this
   = Returned (Some "") this).
Proof.
  intros Hc Hback typed. split; [|split; [|split]].
  - unfold trim at 1.
    destruct (trim_head value) as [Hnil|(a & t & Ha & Hspace)].
    + now rewrite Hnil.
    + rewrite Ha, (trimStart_nonspace a t Hspace), <- Ha.
      unfold trim. apply trimEnd_idempotent.
  - unfold FluentFinderUI.handleQueryChange_begin, typed.
    cbn [key_name key_modified String.eqb negb orb String.length].
    destruct c as [[] [] [] [] [] [] [] []]; reflexivity.
  - unfold FluentFinderUI.handleQueryChange_begin. rewrite Hback.
    cbn [String.eqb Ascii.eqb Bool.eqb].
    now rewrite (trim_app_char value c Hc), dropLast_app_char.
  - intros Hnil. unfold FluentFinderUI.handleQueryChange_begin.
    rewrite Hback. cbn [String.eqb Ascii.eqb Bool.eqb]. now rewrite Hnil.
Qed.

End Editing.

Lemma backspace_undoes_typing_witness :
  FluentFinderUI.handleQueryChange_begin (trim " f " ++ "o")
    (plainKey "backspace") (Session.ui sampleSession)
  = Returned (Some (trim " f ")) (Session.ui sampleSession).
Proof.
  assert (Hc : is_space "o"%char = false) by reflexivity.
  assert (Hb : key_name (plainKey "backspace") = Some "backspace")
    by reflexivity.
  destruct (backspace_undoes_typing " f " "o"%char "o" "o"
              (plainKey "backspace") (Session.ui sampleSession) Hc Hb)
    as (_ & _ & Hundo & _).
  exact Hundo.
Defined.

(** ** Indexing *)

Ltac run_index :=
  unfold Indexing.indexDirectory, Indexing.index, Indexing.loadBufferInfoAsync,
    Indexing.loadBufferInfoSync, try_finally, try_catch, bind, emit, modify,
    await, ret, throw.

Lemma openFactories_app (a b : list IndexEffect) :
  forall n, openFactories (a ++ b) n = openFactories b (openFactories a n).
Proof.
  induction a as [|e a IH]; intros n; [reflexivity|].
  destruct e; simpl; apply IH.
Qed.

Lemma inserted_app (a b : list IndexEffect) :
  inserted (a ++ b) = (inserted a ++ inserted b)%list.
Proof.
  induction a as [|e a IH]; [reflexivity|].
  destruct e; simpl; rewrite IH; reflexivity.
Qed.

Lemma logged_app (a b : list IndexEffect) :
  logged (a ++ b) = (logged a ++ logged b)%list.
Proof.
  induction a as [|e a IH]; [reflexivity|].
  destruct e; simpl; rewrite IH; reflexivity.
Qed.

Lemma openFactories_ParseCode (names : list string) (n : Z) :
  openFactories (map ParseCode names) n = n.
Proof. induction names; simpl; auto. Qed.

Lemma inserted_ParseCode (names : list string) :
  inserted (map ParseCode names) = [].
Proof. induction names; simpl; auto. Qed.

Section IndexingFacts.
Context `{NodePath} (env : IndexEnv).

(** The loop parses the buffers in order, appends what each gives, and stops
    at the first one that does not parse. *)
Lemma parseAll_resolved (parsed : BufferInfo.t -> list BoundaryChunk.t)
  (bufferInfo : list BufferInfo.t) :
  forall chunks log,
    (forall bi,
        In bi bufferInfo ->
        parseCodeWithFilePath env (BufferInfo.content bi)
          (BufferInfo.buffername bi)
        = Resolved (parsed bi)) ->
    Indexing.parseAll env bufferInfo chunks log
    = Returned (chunks ++ flat_map parsed bufferInfo)%list
        (log ++ map ParseCode (map BufferInfo.buffername bufferInfo))%list.
Proof.
  induction bufferInfo as [|bi rest IH]; intros chunks log Hall.
  - cbn. now rewrite !app_nil_r.
  - cbn [Indexing.parseAll]. run_index.
    rewrite (Hall bi) by now left.
    rewrite IH by (intros b Hb; apply Hall; now right).
    cbn. now rewrite <- !app_assoc.
Qed.

Lemma parseAll_rejected (parsed : BufferInfo.t -> list BoundaryChunk.t)
  (before : list BufferInfo.t) (bad : BufferInfo.t)
  (after : list BufferInfo.t) (e : string) :
  forall chunks log,
    (forall bi,
        In bi before ->
        parseCodeWithFilePath env (BufferInfo.content bi)
          (BufferInfo.buffername bi)
        = Resolved (parsed bi)) ->
    parseCodeWithFilePath env (BufferInfo.content bad)
      (BufferInfo.buffername bad)
    = Rejected e ->
    Indexing.parseAll env (before ++ bad :: after) chunks log
    = Thrown e
        (log ++ map ParseCode
                  (map BufferInfo.buffername (before ++ [bad])))%list.
Proof.
  induction before as [|bi rest IH]; intros chunks log Hall Hbad.
  - cbn [app Indexing.parseAll]. run_index. now rewrite Hbad.
  - cbn [app Indexing.parseAll]. run_index.
    rewrite (Hall bi) by now left.
    rewrite IH; [|intros b Hb; apply Hall; now right|exact Hbad].
    cbn. now rewrite <- !app_assoc.
Qed.

Lemma parseAll_log (bufferInfo : list BufferInfo.t) :
  forall chunks log,
    exists names,
      state_of (Indexing.parseAll env bufferInfo chunks log)
      = (log ++ map ParseCode names)%list.
Proof.
  induction bufferInfo as [|bi rest IH]; intros chunks log.
  - exists []. cbn. now rewrite app_nil_r.
  - cbn [Indexing.parseAll]. run_index.
    destruct (parseCodeWithFilePath env _ _) as [i|e].
    + destruct (IH (chunks ++ i)%list (log ++ [ParseCode (BufferInfo.buffername bi)])%list)
        as [names Hnames].
      exists (BufferInfo.buffername bi :: names).
      rewrite Hnames. cbn. now rewrite <- app_assoc.
    + exists [BufferInfo.buffername bi]. reflexivity.
Qed.

(** X10: both index functions leave no parser factory behind and never
    insert partially: whatever the parser and the file system answer, every
    factory that was created has been disposed of when the function ends;
    when it returns a count, it has made exactly one insertion, of as many
    rows as it returns; when it fails, it has inserted nothing. *)
Theorem index_disposes_and_counts {number : Type}
  (dir : FlfDirCore.t number) (buf : FlfBufferCore.t number)
  (path : string) (log : list IndexEffect) (n : Z) :
  let balanced (outcome : Outcome (list IndexEffect) nat) :=
    openFactories (state_of outcome) n = openFactories log n /\
    match outcome with
    | Returned count log' =>
        exists rows,
          inserted log' = (inserted log ++ [rows])%list /\
          List.length rows = count
    | Thrown _ log' => inserted log' = inserted log
    end in
  balanced (Indexing.indexDirectory env dir path log) /\
  balanced (Indexing.index env buf path log).
Proof.
  intros balanced. subst balanced. cbv beta. split.
  - run_index. destruct (FlfDirCore.db dir); [|now split].
    destruct (readDirectoryAndChunk env path) as [chunks|e]; cbn.
    + rewrite !openFactories_app, !inserted_app. cbn. rewrite ?app_nil_r.
      split; [lia|]. eexists.
      split; [reflexivity|apply length_map].
    + rewrite !openFactories_app, !inserted_app. cbn. rewrite ?app_nil_r.
      split; [lia|reflexivity].
  - run_index. destruct (FlfBufferCore.db buf); [|now split].
    destruct (readFile env path) as [data|e]; cbn.
    2:{ rewrite !openFactories_app, !inserted_app. cbn.
        now rewrite ?app_nil_r. }
    destruct (JSON_parse env data) as [bufferInfo|e]; cbn.
    2:{ rewrite !openFactories_app, !inserted_app. cbn.
        now rewrite ?app_nil_r. }
    destruct (parseAll_log bufferInfo []
                ((log ++ [ReadFile path]) ++ [CreateParserFactory])%list)
      as [names Hnames].
    destruct (Indexing.parseAll env bufferInfo [] _) as [chunks log'|e log'];
      cbn in Hnames; subst log'; cbn.
    + rewrite !openFactories_app, !inserted_app, openFactories_ParseCode,
        inserted_ParseCode. cbn. rewrite ?app_nil_r.
      split; [lia|]. eexists.
      split; [reflexivity|apply length_map].
    + rewrite !openFactories_app, !inserted_app, openFactories_ParseCode,
        inserted_ParseCode. cbn. rewrite ?app_nil_r.
      split; [lia|reflexivity].
Qed.

(** X11: [index] is all or nothing and keeps the order of the buffers.  With
    a database and a buffer file that loads: when every buffer parses, the
    buffers are parsed in the order of the file, a single insertion stores
    the chunks of the first buffer, then those of the second, and so on, and
    the count returned is their number; when a buffer does not parse, the
    function fails with that buffer's error, the buffers after it are not
    parsed, nothing is inserted and the factory is disposed of. *)
Theorem index_all_or_nothing {number : Type} (db : VeqliteDB number)
  (path data : string) (bufferInfo : list BufferInfo.t)
  (parsed : BufferInfo.t -> list BoundaryChunk.t) (log : list IndexEffect) :
  readFile env path = Resolved data ->
  JSON_parse env data = Resolved bufferInfo ->
  let this := FlfBufferCore.mk (Some db) in
  ((forall bi,
       In bi bufferInfo ->
       parseCodeWithFilePath env (BufferInfo.content bi)
         (BufferInfo.buffername bi)
       = Resolved (parsed bi)) ->
   Indexing.index env this path log
   = Returned (List.length (flat_map parsed bufferInfo))
       (log ++ [ReadFile path; CreateParserFactory]
          ++ map ParseCode (map BufferInfo.buffername bufferInfo)
          ++ [BulkInsertChunks (map toChunkMeta (flat_map parsed bufferInfo));
              Dispose])%list) /\
  (forall before bad after e,
      bufferInfo = (before ++ bad :: after)%list ->
      (forall bi,
          In bi before ->
          parseCodeWithFilePath env (BufferInfo.content bi)
            (BufferInfo.buffername bi)
          = Resolved (parsed bi)) ->
      parseCodeWithFilePath env (BufferInfo.content bad)
        (BufferInfo.buffername bad)
      = Rejected e ->
      Indexing.index env this path log
      = Thrown e
          (log ++ [ReadFile path; CreateParserFactory]
             ++ map ParseCode (map BufferInfo.buffername (before ++ [bad]))
             ++ [Dispose])%list).
Proof.
  intros Hread Hparse this. split.
  - intros Hall. run_index. cbn. rewrite Hread, Hparse. cbn.
    rewrite (parseAll_resolved parsed bufferInfo) by exact Hall.
    cbn. now rewrite <- !app_assoc.
  - intros before bad after e -> Hall Hbad. run_index. cbn.
    rewrite Hread, Hparse. cbn.
    rewrite (parseAll_rejected parsed before bad after e) by assumption.
    cbn. now rewrite <- !app_assoc.
Qed.

(** X12: the loaders log and rethrow.  When the file is read and parsed,
    both loaders return the buffers and log nothing.  When reading or
    parsing fails, both call [console.error] once, with a text that names
    the file and with the message of the error as second argument, and
    rethrow the same error; and [index] then fails with that error before
    any parser factory is created and without inserting. *)
Theorem loadBufferInfo_rethrows {number : Type} (db : VeqliteDB number)
  (path : string) (log : list IndexEffect) :
  (forall data bufferInfo,
      readFile env path = Resolved data ->
      JSON_parse env data = Resolved bufferInfo ->
      Indexing.loadBufferInfoAsync env path log
      = Returned bufferInfo (log ++ [ReadFile path])%list /\
      Indexing.loadBufferInfoSync env path log
      = Returned bufferInfo (log ++ [ReadFile path])%list) /\
  (forall e,
      readFile env path = Rejected e \/
      (exists data,
          readFile env path = Resolved data /\
          JSON_parse env data = Rejected e) ->
      Indexing.loadBufferInfoAsync env path log
      = Thrown e
          (log ++ [ReadFile path;
                   LogErrorWith
                     ("Error reading or parsing JSON file asynchronously: "
                        ++ path) e])%list /\
      Indexing.loadBufferInfoSync env path log
      = Thrown e
          (log ++ [ReadFile path;
                   LogErrorWith
                     ("Error reading or parsing JSON file synchronously: "
                        ++ path) e])%list /\
      Indexing.index env (FlfBufferCore.mk (Some db)) path log
      = Thrown e
          (log ++ [ReadFile path;
                   LogErrorWith
                     ("Error reading or parsing JSON file asynchronously: "
                        ++ path) e])%list).
Proof.
  split.
  - intros data bufferInfo Hread Hparse. run_index.
    rewrite Hread, Hparse. split; reflexivity.
  - intros e [Hread|(data & Hread & Hparse)]; run_index; cbn;
      rewrite Hread, ?Hparse; cbn; rewrite <- !app_assoc;
      repeat split; reflexivity.
Qed.

End IndexingFacts.

Lemma index_all_or_nothing_witness :
  Indexing.index sampleEnv (FlfBufferCore.mk (Some sampleDb)) "buffers.json" []
  = Thrown "nothing to parse"
      [ReadFile "buffers.json"; CreateParserFactory; ParseCode "a.ts";
       ParseCode "b.ts"; Dispose].
Proof.
  assert (Hread : readFile sampleEnv "buffers.json" = Resolved "two")
    by reflexivity.
  assert (Hparse : JSON_parse sampleEnv "two"
                   = Resolved [BufferInfo.mk "a.ts" "foo"; BufferInfo.mk "b.ts" ""])
    by reflexivity.
  destruct (index_all_or_nothing sampleEnv sampleDb "buffers.json" "two" _
              (fun bi => [sampleChunk (BufferInfo.buffername bi)
                            (BufferInfo.content bi)])
              [] Hread Hparse) as [_ Hfail].
  apply (Hfail [BufferInfo.mk "a.ts" "foo"] (BufferInfo.mk "b.ts" "") []
           "nothing to parse" eq_refl).
  - intros bi [<-|[]]. reflexivity.
  - reflexivity.
Defined.

Lemma loadBufferInfo_rethrows_witness :
  Indexing.loadBufferInfoSync sampleEnv "missing.json" []
  = Thrown "ENOENT"
      [ReadFile "missing.json";
       LogErrorWith
         "Error reading or parsing JSON file synchronously: missing.json"
         "ENOENT"].
Proof.
  destruct (loadBufferInfo_rethrows sampleEnv sampleDb "missing.json" [])
    as [_ Hfail].
  destruct (Hfail "ENOENT" (or_introl eq_refl)) as (_ & Hsync & _).
  exact Hsync.
Defined.

(** ** The print interface *)





Section PrintInterface.
Context `{NodePath} (env : IndexEnv) {number : Type} `{JSNumber number}.


(** X13: [executeIndex] with a core never throws: it ends by reporting
    either success or an error.  A directory without chunks is reported as
    the error ["indexedCount is undefined."], because the count 0 fails the
    test [!indexedCount]; so the only line ever written to standard output
    is the success line with a positive count, and the message for no chunks
    is never written.  Without a core it throws before doing anything. *)
Theorem executeIndex_reports (core : FlfDirCore.t number)
  (isJsonOutput : bool) (dirPath : string) (log : list IndexEffect) :
  let this := FlfCodeSearchUI.mk (Some core) isJsonOutput in
  let report (e : string) :=
    if isJsonOutput then
      LogError
        (JSON_object
           [("status", JSON_string "error");
            ("message", JSON_string ("Error during directory indexing: " ++ e));
            ("directory", JSON_string (resolve dirPath))])
    else LogErrorWith "Error during directory indexing:" e in
  let success (count : nat) :=
    let message :=
      "Indexed " ++ Number_toString (N.of_nat count) ++ " code chunks." in
    if isJsonOutput then
      JSON_object
        [("status", JSON_string "success");
         ("message", JSON_string message);
         ("directory", JSON_string (resolve dirPath))]
    else message in
  FlfCodeSearchUI.executeIndex env this dirPath log
  = match Indexing.indexDirectory env core dirPath log with
    | Returned O log' =>
        Returned tt (log' ++ [report "indexedCount is undefined."])%list
    | Returned count log' => Returned tt (log' ++ [Log (success count)])%list
    | Thrown e log' => Returned tt (log' ++ [report e])%list
    end /\
  (forall line,
      In line
        (logged (state_of (FlfCodeSearchUI.executeIndex env this dirPath log))) ->
      In line (logged log) \/ exists count, (0 < count)%nat /\ line = success count) /\
  FlfCodeSearchUI.executeIndex env
    (FlfCodeSearchUI.mk None isJsonOutput : FlfCodeSearchUI.t number)
    dirPath log
  = Thrown "Core must be initialized before indexing." log.
Proof.
  intros this report success.
  assert (Hrun :
            FlfCodeSearchUI.executeIndex env this dirPath log
            = match Indexing.indexDirectory env core dirPath log with
              | Returned O log' =>
                  Returned tt (log' ++ [report "indexedCount is undefined."])%list
              | Returned count log' =>
                  Returned tt (log' ++ [Log (success count)])%list
              | Thrown e log' => Returned tt (log' ++ [report e])%list
              end).
  { unfold FlfCodeSearchUI.executeIndex, this, report, success.
    cbn [FlfCodeSearchUI.core FlfCodeSearchUI.isJsonOutput].
    unfold try_catch, bind at 1.
    destruct (Indexing.indexDirectory env core dirPath log)
      as [[|count] log'|e log'].
    - cbn. unfold throw, emit, modify. destruct isJsonOutput; reflexivity.
    - cbn. unfold emit, modify. destruct isJsonOutput; reflexivity.
    - unfold emit, modify. destruct isJsonOutput; reflexivity. }
  split; [exact Hrun|]. split; [|reflexivity].
  intros line. rewrite Hrun.
  assert (Hshape : exists extra,
             state_of (Indexing.indexDirectory env core dirPath log)
             = (log ++ extra)%list /\ logged extra = []).
  { run_index. destruct (FlfDirCore.db core); [|exists []; now rewrite app_nil_r].
    destruct (readDirectoryAndChunk env dirPath); cbn;
      rewrite <- !app_assoc; eexists; split; reflexivity. }
  destruct Hshape as (extra & Hstate & Hextra).
  destruct (Indexing.indexDirectory env core dirPath log)
    as [[|count] log'|e log']; cbn in Hstate; subst log'; cbn [state_of];
    rewrite !logged_app, Hextra, app_nil_r; unfold report.
  - destruct isJsonOutput; cbn; rewrite app_nil_r; auto.
  - cbn. intros Hin. apply in_app_or in Hin. destruct Hin as [Hin|[<-|[]]].
    + now left.
    + right. exists (S count). split; [lia|reflexivity].
  - destruct isJsonOutput; cbn; rewrite app_nil_r; auto.
Qed.


End PrintInterface.


(** ** The panes stay in sync *)

Lemma Array_get_Some {A : Type} (l : list A) (i : Z) (x : A) :
  Array_get l i = Some x ->
  (0 <= i < Z.of_nat (List.length l))%Z /\ Array_at l i = Some x.
Proof.
  unfold Array_at, Array_get.
  destruct (i <? 0)%Z eqn:E; [discriminate|]. apply Z.ltb_ge in E.
  intros Hx. split; [|exact Hx]. split; [exact E|].
  assert (Z.to_nat i < List.length l)%nat
    by (apply nth_error_Some; congruence).
  lia.
Qed.

Section Sync.
Context {C W : Type} `{IFlfCore C} `{ListElement W}.

Lemma begin_other_frame (value : string) (key : KeyInput)
  (this : FluentFinderUI.t C W) :
  is_navigation key = false ->
  exists query this',
    FluentFinderUI.handleQueryChange_begin value key this
    = Returned (Some query) this' /\
    FluentFinderUI.list_ this' = FluentFinderUI.list_ this /\
    FluentFinderUI.currentResult this' = FluentFinderUI.currentResult this /\
    FluentFinderUI.preview this' = FluentFinderUI.preview this.
Proof.
  intros Hnav.
  destruct (key_name key) as [name|] eqn:Hname.
  2:{ unfold FluentFinderUI.handleQueryChange_begin. rewrite Hname.
      do 2 eexists. split; [reflexivity|]. repeat split. }
  destruct (String.eqb name "enter") eqn:Henter.
  { apply String.eqb_eq in Henter. subst name.
    rewrite (begin_enter value key this Hname).
    destruct (Array_at _ _); do 2 eexists; (split; [reflexivity|]);
      repeat split. }
  unfold is_navigation in Hnav. rewrite Hname in Hnav.
  apply orb_false_iff in Hnav. destruct Hnav as [Hup Hdown].
  unfold FluentFinderUI.handleQueryChange_begin.
  rewrite Hname, Henter, Hup, Hdown.
  destruct (String.eqb name "backspace");
    [do 2 eexists; split; [reflexivity|]; repeat split|].
  destruct (negb (key_modified key) && (String.length name =? 1)%nat);
    [do 2 eexists; split; [reflexivity|]; repeat split|].
  destruct (key_ctrl key && String.eqb name "c");
    [|do 2 eexists; split; [reflexivity|]; repeat split].
  run_method. do 2 eexists. split; [reflexivity|]. repeat split.
Qed.

Context `{!ListElementLaws W}.

Lemma updateList_in_sync (shown : list ListItem.t)
  (this : FluentFinderUI.t C W) :
  panes_in_sync (state_of (FluentFinderUI.updateList shown this)).
Proof.
  destruct (updateList_list shown this) as [Htitles Hzero].
  cbv zeta in Htitles, Hzero. unfold panes_in_sync.
  rewrite updateList_returns in *. cbn [state_of] in *.
  cbn [FluentFinderUI.currentResult FluentFinderUI.preview].
  split; [exact Htitles|]. intros Hne. rewrite (Hzero Hne).
  destruct shown as [|item rest]; [congruence|].
  exists item. split; reflexivity.
Qed.

Lemma step_in_sync (s : Session.t C W) (ev : Session.Event) :
  panes_in_sync (Session.ui s) ->
  panes_in_sync (Session.ui (Session.step s ev)).
Proof.
  intros [Htitles Hsel].
  destruct ev as [value key| |request]; cbn [Session.step].
  - unfold Session.keypress. destruct (is_navigation key) eqn:Hnav.
    + rewrite (begin_navigation value key (Session.ui s) Hnav). cbv zeta.
      destruct (FluentFinderUI.currentResult (Session.ui s)) as [|r0 rest] eqn:Hcur.
      * rewrite Array_get_nil. cbn. unfold panes_in_sync. cbn.
        rewrite ?Hcur in *. split; [|congruence].
        rewrite navigated_items, Htitles. reflexivity.
      * assert (Hrows : items (FluentFinderUI.list_ (Session.ui s)) <> [])
          by (rewrite Htitles; discriminate).
        pose proof (navigated_in_range key _ Hnav Hrows) as Hrange.
        rewrite Htitles, length_map in Hrange.
        destruct (Array_get_in_range (r0 :: rest) _ Hrange) as [item Hitem].
        rewrite Hitem. cbn. unfold panes_in_sync. cbn. rewrite ?Hcur in *.
        split; [rewrite navigated_items, Htitles; reflexivity|].
        intros _. exists item. split; [exact Hitem|reflexivity].
    + destruct (begin_other_frame value key (Session.ui s) Hnav)
        as (query & this' & Hbegin & Hlist & Hcur & Hpre).
      rewrite Hbegin. cbn. unfold panes_in_sync.
      rewrite Hlist, Hcur, Hpre. split; assumption.
  - unfold Session.screenKey. run_method. cbn. split; assumption.
  - unfold Session.settle.
    destruct (Session.pending request (Session.inflight s)) as [[res|e]|];
      cbn; try (split; assumption).
    unfold FluentFinderUI.handleQueryChange_resume, bind.
    pose proof (updateList_in_sync
                  (map FluentFinderUI.toListItem
                     (Array_sort FluentFinderUI.byRank res)) (Session.ui s))
      as Hsync.
    rewrite updateList_returns in *. cbn [state_of] in Hsync.
    run_method. cbn. exact Hsync.
Qed.

Lemma run_in_sync (evs : list Session.Event) :
  forall s : Session.t C W,
    panes_in_sync (Session.ui s) ->
    panes_in_sync (Session.ui (Session.run evs s)).
Proof.
  induction evs as [|ev evs IH]; intros s Hsync; [exact Hsync|].
  cbn [Session.run fold_left]. apply IH. now apply step_in_sync.
Qed.

Lemma start_in_sync (core : C) (options : UIOptions.t) :
  panes_in_sync (Session.ui (Session.start core options)).
Proof.
  unfold Session.start, FluentFinderUI.constructor, FluentFinderUI.run, bind.
  rewrite updateList_returns. cbn. unfold panes_in_sync. cbn.
  split; [apply items_setItems|congruence].
Qed.

(** X15: the panes stay in sync.  At every point of every session, after
    any keypresses, quit keys and responses in any order, the list shows
    exactly the titles of the results the console holds, and whenever [enter]
    would submit an item, the cursor is on a row of the list and the preview
    shows the content and the language of that very item. *)
Theorem panes_stay_in_sync (core : C) (options : UIOptions.t)
  (evs : list Session.Event) :
  let this := Session.ui (Session.run evs (Session.start core options)) in
  items (FluentFinderUI.list_ this)
  = map (fun item => ListItem.filePath item ++ "#" ++ ListItem.entity item)
      (FluentFinderUI.currentResult this) /\
  (forall item,
      Array_at (FluentFinderUI.currentResult this)
        (selected (FluentFinderUI.list_ this)) = Some item ->
      (0 <= selected (FluentFinderUI.list_ this)
       < Z.of_nat (List.length (items (FluentFinderUI.list_ this))))%Z /\
      FluentFinderUI.preview this
      = (ListItem.content item, ListItem.language item)).
Proof.
  intros this.
  destruct (run_in_sync evs _ (start_in_sync core options))
    as [Htitles Hsel].
  fold this in Htitles, Hsel. split; [exact Htitles|].
  intros item Hat.
  destruct (FluentFinderUI.currentResult this) as [|r0 rest] eqn:Hcur.
  { unfold Array_at in Hat. rewrite !Array_get_nil in Hat.
    destruct (_ <? 0)%Z; discriminate. }
  destruct Hsel as (item' & Hget & Hpre); [discriminate|].
  destruct (Array_get_Some _ _ _ Hget) as [Hrange Hat'].
  rewrite Hat' in Hat. injection Hat as <-.
  split; [|exact Hpre].
  rewrite Htitles, length_map. exact Hrange.
Qed.

End Sync.

Lemma panes_stay_in_sync_witness :
  items
    (FluentFinderUI.list_
       (Session.ui
          (Session.run
             [Session.Keypress "" (plainKey "f"); Session.Settle 0;
              Session.Keypress "f" (plainKey "down")]
             (Session.start sampleCore (UIOptions.mk nvim)))))
  = ["src/a.ts#foo"; "src/b.ts#fob"].
Proof.
  destruct (panes_stay_in_sync (W := SimpleList.t) sampleCore
              (UIOptions.mk nvim)
              [Session.Keypress "" (plainKey "f"); Session.Settle 0;
               Session.Keypress "f" (plainKey "down")]) as [Htitles _].
  rewrite Htitles. vm_compute. reflexivity.
Defined.

(** ** Replacing the list *)

Section Replace.
Context {C W : Type} `{IFlfCore C} `{ListElement W} `{!ListElementLaws W}.


End Replace.


(** ** The output command *)

(** C5, as stated, fails: the path is embedded as it is, so the command for
    an item whose path holds a line feed spans two lines, in both cores. *)
Lemma formatResult_path_with_line_feed :
  FlfDirCore.formatResult twoLineItem nvim
  = "<cmd>tabf +5 notes" ++ String newline "draft.ts<CR>" /\
  has_newline (FlfDirCore.formatResult twoLineItem nvim) = true /\
  has_newline (FlfDirCore.formatResult twoLineItem vim) = true /\
  has_newline (FlfBufferCore.formatResult twoLineItem nvim) = true /\
  has_newline (FlfBufferCore.formatResult twoLineItem vim) = true.
Proof. repeat split. Qed.

(** C5 (amended): for every item, [formatResult] with [nvim] or [vim] is a
    jump command that embeds the 1-based starting line (start row plus one)
    and the file path as it is ([tabf] in the directory core and in the
    console's [showResult], a call of [FlfJumpToBufWithLine] in the buffer
    core); the command is on a single line exactly when the path holds no
    line feed.  With [cmd] and with [emacs] it is the JSON text of the item:
    an object with the keys [filePath], [entity], [content], [language] and
    [cursorInfo] in this order, the strings quoted and escaped, the positions
    as decimal numbers; this text is always on a single line. *)
Theorem formatResult_by_editor (result : ListItem.t) :
  let line :=
    Number_toString
      (Point.row (CursorInfo.start (ListItem.cursorInfo result)) + 1) in
  let path := ListItem.filePath result in
  let tabf := "<cmd>tabf +" ++ line ++ " " ++ path ++ "<CR>" in
  let jump :=
    "<cmd>call FlfJumpToBufWithLine(" ++ dquote ++ path ++ dquote ++ ","
      ++ dquote ++ line ++ dquote ++ ")<CR>" in
  let q := dquote in
  let quoted (s : string) := q ++ JSON_escape s ++ q in
  let position (p : Point.t) :=
    "{" ++ q ++ "row" ++ q ++ ":" ++ Number_toString (Point.row p) ++ ","
        ++ q ++ "column" ++ q ++ ":" ++ Number_toString (Point.column p)
        ++ "}" in
  let cursor :=
    "{" ++ q ++ "start" ++ q ++ ":"
        ++ position (CursorInfo.start (ListItem.cursorInfo result)) ++ ","
        ++ q ++ "end" ++ q ++ ":"
        ++ position (CursorInfo.end_ (ListItem.cursorInfo result)) ++ "}" in
  let json :=
    "{" ++ q ++ "filePath" ++ q ++ ":" ++ quoted path ++ ","
        ++ q ++ "entity" ++ q ++ ":" ++ quoted (ListItem.entity result) ++ ","
        ++ q ++ "content" ++ q ++ ":" ++ quoted (ListItem.content result) ++ ","
        ++ q ++ "language" ++ q ++ ":" ++ quoted (ListItem.language result)
        ++ "," ++ q ++ "cursorInfo" ++ q ++ ":" ++ cursor ++ "}" in
  (FlfDirCore.formatResult result nvim = tabf /\
   FlfDirCore.formatResult result vim = tabf /\
   FlfBufferCore.formatResult result nvim = jump /\
   FlfBufferCore.formatResult result vim = jump) /\
  (has_newline tabf = has_newline path /\
   has_newline jump = has_newline path) /\
  (FlfDirCore.formatResult result cmd = json /\
   FlfDirCore.formatResult result emacs = json /\
   FlfBufferCore.formatResult result cmd = json /\
   FlfBufferCore.formatResult result emacs = json) /\
  has_newline json = false /\
  (forall (C W : Type) (this : FluentFinderUI.t C W) (editor : OutputType),
      FluentFinderUI.showResult result editor this
      = Returned tt
          (FluentFinderUI.mk (FluentFinderUI.core this)
             (FluentFinderUI.list_ this) (FluentFinderUI.preview this)
             (FluentFinderUI.currentResult this) (FluentFinderUI.options this)
             (FluentFinderUI.io this
                ++ [ConsoleLog (FlfDirCore.formatResult result editor)])%list)).
Proof.
  intros line path tabf jump q quoted position cursor json.
  split; [repeat split|]. split; [|split; [repeat split|split]].
  - subst tabf jump line. split.
    + rewrite !has_newline_app, has_newline_Number. simpl.
      now rewrite orb_false_r.
    + rewrite !has_newline_app, has_newline_Number. simpl.
      now rewrite orb_false_r.
  - subst json cursor position quoted q. cbv beta.
    rewrite !has_newline_app, !has_newline_JSON_escape, !has_newline_Number.
    reflexivity.
  - intros C W this editor. destruct editor; reflexivity.
Qed.

(** ** Cancellation and the exit status *)

Section Cancelling.
Context {C W : Type} `{IFlfCore C} `{ListElement W} `{!ListElementLaws W}.




End Cancelling.


